(** * Traffic analytics engine: a shallow embedding of the dashboard code

    The development embeds the data pipeline of
    [frontend/src/pages/Dashboard.jsx] (upload, per-route and per-minute
    aggregation, quartile classifier, map markers, recommendations) and of
    the admin dashboard (CSV normalisation, accumulated rows, per-route
    statistics, rule-based recommender), and proves properties of them.

    Modelling conventions.
    - A JavaScript number is [NaN] or a finite value carried as an exact
      rational ([Q]); rounding error, overflow and the two infinities of
      IEEE doubles are outside the model.  Results on numbers are stated up
      to [Qeq].
    - A cell delivered by the CSV parser (dynamic typing on) or by JSON is a
      [jsval]: undefined, null, a boolean, a number, a string or a Date.
    - Built-ins whose behaviour is not decided by the repository (numeric
      parsing of strings, printing of numbers and dates, date parsing, ISO
      formatting) are fields of the class [Runtime]; every theorem holds for
      all runtimes.  [refRuntime] is a small concrete runtime used by the
      closed examples.
    - Strings are byte strings; lower-casing is the ASCII one. *)

From Stdlib Require Import ZArith QArith Qround Qabs List String Ascii Bool.
From Stdlib Require Import DecimalString.
From Stdlib Require Import Arith Lia Lqa Sorted Permutation.
Import ListNotations.

Local Close Scope Q_scope.
Local Open Scope string_scope.
Local Open Scope list_scope.

(* ================================================================== *)
(** * JavaScript values and built-ins *)
(* ================================================================== *)

Module JS.

(** A JavaScript number: not-a-number or a finite value. *)
Inductive number : Type :=
| NaN
| Fin (q : Q).

(** Values found in parsed records.  A Date carries its time value in
    milliseconds since the epoch, [None] for an Invalid Date. *)
Inductive jsval : Type :=
| JUndefined
| JNull
| JBool (b : bool)
| JNumber (n : number)
| JString (s : string)
| JDate (tv : option Z).

(** Built-ins left to the host. *)
Class Runtime : Type := {
  (** [Number(s)] on a string. *)
  StringToNumber : string -> number;
  (** [String(x)] on a finite number, as used for property keys. *)
  NumberToString : Q -> string;
  (** [String(d)] on a Date. *)
  DateToString : option Z -> string;
  (** [Date.parse(s)]: the time value, [None] when unparsable. *)
  DateParse : string -> option Z;
  (** [d.toISOString()] on a valid time value. *)
  TimeToISOString : Z -> string;
  (** Printing a number or a date never gives the empty string. *)
  NumberToString_nonempty : forall q, NumberToString q <> "";
  DateToString_nonempty : forall tv, DateToString tv <> ""
}.

Definition isNaN (n : number) : bool :=
  match n with NaN => true | Fin _ => false end.

(** [a + b] on numbers. *)
Definition nadd (a b : number) : number :=
  match a, b with
  | Fin x, Fin y => Fin (x + y)%Q
  | _, _ => NaN
  end.


(** Truthiness ([!!v]). *)
Definition ToBoolean (v : jsval) : bool :=
  match v with
  | JUndefined | JNull => false
  | JBool b => b
  | JNumber NaN => false
  | JNumber (Fin q) => negb (Qeq_bool q 0%Q)
  | JString s => negb (s =? "")
  | JDate _ => true
  end.

(** [Number(v)]. *)
Definition ToNumber {rt : Runtime} (v : jsval) : number :=
  match v with
  | JUndefined => NaN
  | JNull => Fin 0%Q
  | JBool b => Fin (if b then 1%Q else 0%Q)
  | JNumber n => n
  | JString s => StringToNumber s
  | JDate None => NaN
  | JDate (Some t) => Fin (inject_Z t)
  end.

(** [String(v)], also the property key a value is turned into. *)
Definition ToString {rt : Runtime} (v : jsval) : string :=
  match v with
  | JUndefined => "undefined"
  | JNull => "null"
  | JBool true => "true"
  | JBool false => "false"
  | JNumber NaN => "NaN"
  | JNumber (Fin q) => NumberToString q
  | JString s => s
  | JDate tv => DateToString tv
  end.

(** [a || b] and [a ?? b]. *)
Definition js_or (a b : jsval) : jsval := if ToBoolean a then a else b.

Definition nullish (a b : jsval) : jsval :=
  match a with
  | JUndefined | JNull => b
  | _ => a
  end.

(** [typeof v === "number"]. *)
Definition is_number (v : jsval) : bool :=
  match v with JNumber _ => true | _ => false end.

(** [Math.floor(n * c)] for a list length [n]. *)
Definition floor_mul (n : nat) (c : Q) : nat :=
  Z.to_nat (Qfloor (inject_Z (Z.of_nat n) * c)%Q).

(** [+(x).toFixed(2)]: the nearest multiple of 0.01, ties away from zero;
    from 1e21 on [toFixed] prints the number itself. *)
Definition toFixed2 (x : Q) : Q :=
  if Qle_bool 1e21%Q (Qabs x) then x
  else if Qle_bool 0%Q x then (inject_Z (Qfloor (x * 100 + (1 # 2))) / 100)%Q
  else (- (inject_Z (Qfloor ((- x) * 100 + (1 # 2))) / 100))%Q.


(** [xs.sort(cmp)]: the sort is stable; [le a b] stands for
    "[cmp(a, b)] is not positive". *)
Section Sort.
Context {A : Type} (le : A -> A -> bool).

Fixpoint insert (x : A) (l : list A) : list A :=
  match l with
  | [] => [x]
  | y :: l' => if le x y then x :: l else y :: insert x l'
  end.

Fixpoint sort (l : list A) : list A :=
  match l with
  | [] => []
  | x :: l' => insert x (sort l')
  end.

End Sort.

(** [xs.slice(0, n)] and [xs.slice(-n)]. *)
Definition slice_to {A} (n : nat) (l : list A) : list A := firstn n l.
Definition slice_last {A} (n : nat) (l : list A) : list A :=
  skipn (List.length l - n) l.

(** A parsed record: column name to cell; a missing column reads as
    undefined. *)
Definition record : Type := list (string * jsval).

Fixpoint get (r : record) (c : string) : jsval :=
  match r with
  | [] => JUndefined
  | (k, v) :: r' => if k =? c then v else get r' c
  end.

(** Outcome of code that may throw. *)
Inductive result (A : Type) : Type :=
| Ok (a : A)
| Throw (e : string).
Arguments Ok {A} a.
Arguments Throw {A} e.

(** ** Objects used as dictionaries of running sums *)

(** [{ sum, count }]. *)
Module Bucket.

Record t : Type := mk { sum : Q; count : nat }.

Definition zero : t := mk 0%Q 0.

(** [b.sum += v; b.count += 1]. *)
Definition add (v : Q) (b : t) : t := mk (sum b + v)%Q (S (count b)).

End Bucket.

(** The own properties of an object literal [{}] that is filled key by key,
    in creation order. *)
Definition object : Type := list (string * Bucket.t).

Fixpoint lookup (o : object) (k : string) : option Bucket.t :=
  match o with
  | [] => None
  | (k', b) :: o' => if k' =? k then Some b else lookup o' k
  end.

Fixpoint update (o : object) (k : string) (f : Bucket.t -> Bucket.t) : object :=
  match o with
  | [] => []
  | (k', b) :: o' =>
      if k' =? k then (k', f b) :: o' else (k', b) :: update o' k f
  end.

(** Names every plain object inherits from [Object.prototype]; reading one
    of them on [{}] gives a truthy value that is not an own property. *)
Definition Object_prototype_names : list string :=
  [ "constructor"; "hasOwnProperty"; "isPrototypeOf"; "propertyIsEnumerable";
    "toLocaleString"; "toString"; "valueOf"; "__proto__";
    "__defineGetter__"; "__defineSetter__"; "__lookupGetter__";
    "__lookupSetter__" ].

Definition inherited (k : string) : bool :=
  existsb (String.eqb k) Object_prototype_names.

(** One pass of the aggregation loops:
    [if (!o[k]) o[k] = { sum: 0, count: 0 };
     if (v !== null && !Number.isNaN(v)) { o[k].sum += v; o[k].count += 1; }].
    For an inherited name [o[k]] is truthy and the writes land on the
    inherited member, so the own properties stay as they are. *)
Definition accumulate (o : object) (k : string) (v : option number) : object :=
  if inherited k then o
  else
    let o1 :=
      match lookup o k with
      | Some _ => o
      | None => o ++ [(k, Bucket.zero)]
      end in
    match v with
    | Some (Fin q) => update o1 k (Bucket.add q)
    | Some NaN | None => o1
    end.

(** Array-index keys: canonical decimal strings below 2^32 - 1. *)
Definition digit (c : ascii) : option N :=
  let n := N_of_ascii c in
  if ((48 <=? n) && (n <=? 57))%N then Some (n - 48)%N else None.

Fixpoint digits (s : string) (acc : N) : option N :=
  match s with
  | EmptyString => Some acc
  | String c s' =>
      match digit c with
      | Some d => digits s' (10 * acc + d)%N
      | None => None
      end
  end.

Definition array_index (s : string) : option N :=
  match s with
  | EmptyString => None
  | String c s' =>
      if (c =? "0")%char then
        match s' with EmptyString => Some 0%N | _ => None end
      else
        match digits s 0 with
        | Some n => if (n <? 4294967295)%N then Some n else None
        | None => None
        end
  end.

Definition is_index (kv : string * Bucket.t) : bool :=
  match array_index (fst kv) with Some _ => true | None => false end.

Definition index_le (a b : string * Bucket.t) : bool :=
  match array_index (fst a), array_index (fst b) with
  | Some m, Some n => (m <=? n)%N
  | _, _ => true
  end.

(** The own properties in the order [Object.keys] lists them: array indices
    ascending, then the other keys in creation order. *)
Definition Object_entries (o : object) : list (string * Bucket.t) :=
  sort index_le (filter is_index o) ++ filter (fun kv => negb (is_index kv)) o.

Definition Object_keys (o : object) : list string := map fst (Object_entries o).

(** ** Strings *)

Definition lower (c : ascii) : ascii :=
  let n := N_of_ascii c in
  if ((65 <=? n) && (n <=? 90))%N then ascii_of_N (n + 32) else c.

Fixpoint toLowerCase (s : string) : string :=
  match s with
  | EmptyString => EmptyString
  | String c s' => String (lower c) (toLowerCase s')
  end.

(** [s.includes(k)]. *)
Fixpoint includes (s k : string) : bool :=
  prefix k s ||
  match s with
  | EmptyString => false
  | String _ s' => includes s' k
  end.

Definition string_of_nat (n : nat) : string :=
  NilZero.string_of_uint (Nat.to_uint n).

End JS.

Import JS.

(* ================================================================== *)
(** * Dashboard.jsx *)
(* ================================================================== *)

Module Dashboard.

(** One entry of [statsByRoute]: [{ route, avg, count }] where [avg] is a
    number or null. *)
Record stat : Type := mkStat {
  route : string;
  avg : option Q;
  count : nat
}.

(** A stat with its [prediction] field. *)
Record prediction_row : Type := mkPred {
  group : stat;
  prediction : string
}.

(** [g.avg >= q] and [g.avg <= q] against a threshold read from an array
    position; an undefined threshold makes both comparisons false. *)
Definition ge_threshold (a : Q) (q : option Q) : bool :=
  match q with Some t => Qle_bool t a | None => false end.

Definition le_threshold (a : Q) (q : option Q) : bool :=
  match q with Some t => Qle_bool a t | None => false end.

(** The averages that are numbers. *)
Fixpoint numeric_avgs (groups : list stat) : list Q :=
  match groups with
  | [] => []
  | g :: gs =>
      match avg g with
      | Some a => a :: numeric_avgs gs
      | None => numeric_avgs gs
      end
  end.

(** [simplePredictor(groups, numericKey)]. *)
Definition simplePredictor (groups : list stat) : list prediction_row :=
  let avgs := numeric_avgs groups in
  if (List.length avgs =? 0)%nat then map (fun g => mkPred g "Unknown") groups
  else
    let sorted := sort Qle_bool avgs in
    let q1 := nth_error sorted (floor_mul (List.length sorted) 0.25%Q) in
    let q3 := nth_error sorted (floor_mul (List.length sorted) 0.75%Q) in
    map (fun g =>
           let pred :=
             match avg g with
             | None => "NoData"
             | Some a =>
                 if ge_threshold a q3 then "Heavy"
                 else if le_threshold a q1 then "Light"
                 else "Moderate"
             end in
           mkPred g pred) groups.

(** ** Cell predicates *)

Definition is_empty_string (v : jsval) : bool :=
  match v with JString s => s =? "" | _ => false end.

Definition is_null (v : jsval) : bool :=
  match v with JNull => true | _ => false end.

(** [v === 0]. *)
Definition is_zero (v : jsval) : bool :=
  match v with JNumber (Fin q) => Qeq_bool q 0%Q | _ => false end.

(** [isNumeric]. *)
Definition isNumeric {rt : Runtime} (v : jsval) : bool :=
  is_number v
  || (negb (isNaN (ToNumber v)) && negb (is_empty_string v) && negb (is_null v)).

(** Time values beyond 8.64e15 ms do not exist; a finite one loses its
    fraction. *)
Definition TimeClip (q : Q) : option Z :=
  if Qle_bool (Qabs q) 8.64e15%Q
  then Some (if Qle_bool 0%Q q then Qfloor q else Qceiling q)
  else None.

(** The time value of [new Date(v)]. *)
Definition new_Date {rt : Runtime} (v : jsval) : option Z :=
  match v with
  | JDate tv => tv
  | JString s => DateParse s
  | _ => match ToNumber v with
         | Fin q => TimeClip q
         | NaN => None
         end
  end.

(** [tryParseDate]: null ([None]) or a Date object, whose time value may
    itself be invalid. *)
Definition tryParseDate {rt : Runtime} (v : jsval) : option (option Z) :=
  if negb (ToBoolean v) && negb (is_zero v) then None
  else
    match new_Date v with
    | Some t => Some (Some t)
    | None =>
        match ToNumber v with
        | Fin n => if negb (Qle_bool n 1e9%Q) then Some (TimeClip n) else None
        | NaN => None
        end
    end.

(** ** The data effect: statistics by route *)

(** [selectedCols]; the empty string stands for "none". *)
Record selection : Type := mkSel {
  routeCol : string;
  timeCol : string;
  valueCol : string;
  latCol : string;
  lngCol : string
}.

(** [isNumeric(x) ? Number(x) : null]. *)
Definition numeric_value {rt : Runtime} (x : jsval) : option number :=
  if isNumeric x then Some (ToNumber x) else None.

(** The property key of [r[routeCol] ?? "Unknown"]. *)
Definition route_key {rt : Runtime} (routeCol : string) (r : record) : string :=
  ToString (nullish (get r routeCol) (JString "Unknown")).

Definition byRoute {rt : Runtime} (routeCol valueCol : string) (rows : list record)
  : object :=
  fold_left
    (fun o r => accumulate o (route_key routeCol r)
                  (numeric_value (get r valueCol)))
    rows [].

(** [{ route, avg: count > 0 ? +(sum / count).toFixed(2) : null, count }]. *)
Definition stat_of (kv : string * Bucket.t) : stat :=
  let (k, b) := kv in
  mkStat k
    (if (0 <? Bucket.count b)%nat
     then Some (toFixed2 (Bucket.sum b / inject_Z (Z.of_nat (Bucket.count b)))%Q)
     else None)
    (Bucket.count b).

Definition stats_of (o : object) : list stat := map stat_of (Object_entries o).

Definition has_avg (s : stat) : bool :=
  match avg s with Some _ => true | None => false end.

(** The average as an operand of a subtraction (null counts as 0). *)
Definition avg_num (s : stat) : Q :=
  match avg s with Some a => a | None => 0%Q end.

(** [(a, b) => b.avg - a.avg] is not positive. *)
Definition desc_avg (a b : stat) : bool := Qle_bool (avg_num b) (avg_num a).

Definition top_of (stats : list stat) : list stat :=
  slice_to 10 (sort desc_avg (filter has_avg stats)).

Definition predGroups_of (preds : list prediction_row) : list (string * nat) :=
  map (fun k => (k, List.length (filter (fun p => prediction p =? k) preds)))
      ["Heavy"; "Moderate"; "Light"].

(** ** The data effect: time series *)

(** A point [{ date, value }] of the line chart. *)
Record point : Type := mkPoint { date : string; value : Q }.

(** One turn of the loop over the rows; [d.toISOString()] throws a
    RangeError on an Invalid Date. *)
Definition series_step {rt : Runtime} (timeCol valueCol : string)
    (acc : result object) (r : record) : result object :=
  match acc with
  | Throw e => Throw e
  | Ok byDate =>
      match tryParseDate (get r timeCol) with
      | None => Ok byDate
      | Some None => Throw "RangeError: Invalid time value"
      | Some (Some t) =>
          let key := substring 0 16 (TimeToISOString t) in
          Ok (accumulate byDate key (numeric_value (get r valueCol)))
      end
  end.

(** The bucket a row falls into: [None] when [tryParseDate] gives null (or
    no valid date). *)
Definition time_key {rt : Runtime} (timeCol : string) (r : record)
  : option string :=
  match tryParseDate (get r timeCol) with
  | Some (Some t) => Some (substring 0 16 (TimeToISOString t))
  | _ => None
  end.

Definition byDate {rt : Runtime} (timeCol valueCol : string) (rows : list record)
  : result object :=
  fold_left (series_step timeCol valueCol) rows (Ok []).

(** [{ date: k, value: +(sum / Math.max(1, count)).toFixed(2) }]. *)
Definition point_of (o : object) (k : string) : point :=
  match lookup o k with
  | Some b =>
      mkPoint k (toFixed2 (Bucket.sum b
                           / inject_Z (Z.of_nat (Nat.max 1 (Bucket.count b))))%Q)
  | None => mkPoint k 0%Q
  end.

(** [Object.keys(byDate).sort().map(...)]. *)
Definition seriesData (o : object) : list point :=
  map (point_of o) (sort String.leb (Object_keys o)).

(** ** Map markers *)

Definition hasGeo {rt : Runtime} (latCol lngCol : string) (rows : list record)
  : bool :=
  negb (latCol =? "") && negb (lngCol =? "")
  && existsb (fun r => isNumeric (get r latCol) && isNumeric (get r lngCol))
       rows.

(** The marker of one row, or null when a coordinate is not finite. *)
Definition row_marker {rt : Runtime} (latCol lngCol : string) (r : record)
  : option (Q * Q) :=
  match ToNumber (get r latCol), ToNumber (get r lngCol) with
  | Fin lat, Fin lng => Some (lat, lng)
  | _, _ => None
  end.

(** The markers [MapView] puts on the map. *)
Definition MapView {rt : Runtime} (rows : list record) (latCol lngCol : string)
  : list (option (Q * Q)) :=
  if hasGeo latCol lngCol rows
  then map (row_marker latCol lngCol) (slice_to 300 rows)
  else [Some (0.3476%Q, 32.5825%Q); Some (0.3526%Q, 32.585%Q)].

(** ** Recommendations *)

(** [recommended] of [PredictionsPanel]. *)
Definition recommended (topRoutes : list stat) : list string :=
  slice_to 3 (map route (slice_last 3 topRoutes)).

(** ** State of the component *)

Record state : Type := mkState {
  rows : list record;
  columns : list string;
  notifications : list string;
  selectedCols : selection;
  statsByRoute : list stat;
  series : list point;
  predictions : list prediction_row;
  predGroups : list (string * nat);
  topRoutes : list stat
}.

Fixpoint findIndex {A} (p : A -> bool) (l : list A) : option nat :=
  match l with
  | [] => None
  | x :: l' =>
      if p x then Some 0
      else match findIndex p l' with Some i => Some (S i) | None => None end
  end.

(** [find] of [onParsed]: the first field whose lower-cased name contains
    one of the keys. *)
Definition find (metaFields keys : list string) : string :=
  let lower := map toLowerCase metaFields in
  match findIndex (fun c => existsb (fun k => includes c k) keys) lower with
  | Some idx => nth idx metaFields ""
  | None => ""
  end.

Definition detect (metaFields : list string) : selection :=
  mkSel (find metaFields ["route"; "road"; "segment"; "link"])
        (find metaFields ["timestamp"; "time"; "date"; "datetime"])
        (find metaFields ["congestion"; "count"; "flow"; "speed"; "vehicles"])
        (find metaFields ["lat"; "latitude"])
        (find metaFields ["lon"; "lng"; "longitude"]).

(** [onParsed(data, metaFields)]. *)
Definition onParsed (s : state) (data : list record) (metaFields : list string)
  : state :=
  mkState data metaFields
    (slice_to 6
       ((("Loaded " ++ string_of_nat (List.length data)) ++ " rows")%string
        :: notifications s))
    (detect metaFields)
    (statsByRoute s) (series s) (predictions s) (predGroups s) (topRoutes s).

(** The effect that runs when [rows] or [selectedCols] change.  The route
    part comes first; an exception of the series part leaves the series
    untouched and escapes the effect. *)
Definition data_effect {rt : Runtime} (s : state) : result state :=
  let sel := selectedCols s in
  let s1 :=
    if (List.length (rows s) =? 0)%nat || (routeCol sel =? "")
       || (valueCol sel =? "")
    then
      mkState (rows s) (columns s) (notifications s) sel
        [] (series s) [] (predGroups s) []
    else
      let stats := stats_of (byRoute (routeCol sel) (valueCol sel) (rows s)) in
      let preds := simplePredictor stats in
      mkState (rows s) (columns s) (notifications s) sel
        stats (series s) preds (predGroups_of preds) (top_of stats) in
  if (List.length (rows s) =? 0)%nat || (timeCol sel =? "")
     || (valueCol sel =? "")
  then
    Ok (mkState (rows s1) (columns s1) (notifications s1) sel
          (statsByRoute s1) [] (predictions s1) (predGroups s1) (topRoutes s1))
  else
    match byDate (timeCol sel) (valueCol sel) (rows s) with
    | Throw e => Throw e
    | Ok o =>
        Ok (mkState (rows s1) (columns s1) (notifications s1) sel
              (statsByRoute s1) (seriesData o) (predictions s1) (predGroups s1)
              (topRoutes s1))
    end.

(** A completed parse: [onParsed], then the effect it triggers. *)
Definition ingest {rt : Runtime} (s : state) (data : list record)
    (metaFields : list string) : result state :=
  data_effect (onParsed s data metaFields).

End Dashboard.

(* ================================================================== *)
(** * AdminDashboard.jsx *)
(* ================================================================== *)

Module Admin.

(** A dataset row as the admin state keeps it. *)
Record row : Type := mkRow {
  route : jsval;
  timestamp : jsval;
  value : jsval;
  lat : jsval;
  lng : jsval;
  raw : record
}.

(** [Number(x) || null]. *)
Definition number_or_null {rt : Runtime} (x : jsval) : jsval :=
  js_or (JNumber (ToNumber x)) JNull.

(** The row [importCSV] builds from one parsed record [o]; [now] is the
    value of [nowISO()]. *)
Definition normalize {rt : Runtime} (now : string) (o : record) : row :=
  mkRow
    (js_or (get o "route") (js_or (get o "Road") (js_or (get o "link")
      (js_or (get o "segment") (js_or (get o "road") (JString "Unknown"))))))
    (js_or (get o "timestamp") (js_or (get o "time") (js_or (get o "date")
      (js_or (get o "datetime") (JString now)))))
    (number_or_null
       (nullish (get o "value") (nullish (get o "congestion")
         (nullish (get o "count") (nullish (get o "flow")
           (get o "vehicles"))))))
    (number_or_null
       (js_or (get o "lat") (js_or (get o "latitude") (get o "start_lat"))))
    (number_or_null
       (js_or (get o "lng") (js_or (get o "longitude") (get o "start_lng"))))
    o.

Definition ROW_CAP : nat := N.to_nat 200000.

(** The [complete] callback of [importCSV] on the rows state:
    [setRows((prev) => [...normalized, ...prev].slice(0, 200000))]. *)
Definition importCSV {rt : Runtime} (now : string) (parsed : list record)
    (prev : list row) : list row :=
  slice_to ROW_CAP (map (normalize now) parsed ++ prev).

(** [clearDataset]. *)
Definition clearDataset (prev : list row) : list row := [].

(** The key of [r.route || "Unknown"]. *)
Definition route_key {rt : Runtime} (r : row) : string :=
  ToString (js_or (route r) (JString "Unknown")).

(** ** recommendRoute *)

(** [{ route, avg }] where [None] stands for [Infinity]. *)
Record routeAvg : Type := mkRouteAvg { ra_route : string; ra_avg : option Q }.

Definition recommend_byRoute {rt : Runtime} (rows : list row) : object :=
  fold_left
    (fun o r => accumulate o (route_key r) (Some (ToNumber (value r))))
    rows [].

Definition routeAvg_of (kv : string * Bucket.t) : routeAvg :=
  let (k, b) := kv in
  mkRouteAvg k
    (if (0 <? Bucket.count b)%nat
     then Some (Bucket.sum b / inject_Z (Z.of_nat (Bucket.count b)))%Q
     else None).

(** [(a, b) => a.avg - b.avg] is not positive; the difference of two
    infinities is NaN, which the sort reads as 0. *)
Definition asc_avg (a b : routeAvg) : bool :=
  match ra_avg a, ra_avg b with
  | Some x, Some y => Qle_bool x y
  | Some _, None => true
  | None, Some _ => false
  | None, None => true
  end.

(** [routeAvgs.slice(0, 3)] after the sort. *)
Definition suggested {rt : Runtime} (rows : list row) : list routeAvg :=
  slice_to 3 (sort asc_avg (map routeAvg_of (Object_entries (recommend_byRoute rows)))).

(** [Math.round(r.avg || 0)] printed. *)
Definition estimate {rt : Runtime} (a : option Q) : string :=
  match a with
  | None => "Infinity"
  | Some x =>
      NumberToString
        (inject_Z (Qfloor ((if Qeq_bool x 0%Q then 0%Q else x) + (1 # 2))%Q))
  end.

Fixpoint join (sep : string) (l : list string) : string :=
  match l with
  | [] => ""
  | [x] => x
  | x :: l' => (x ++ sep ++ join sep l')%string
  end.

(** The advice string [recommendRoute] returns. *)
Definition recommendRoute {rt : Runtime} (rows : list row) : string :=
  let suggestions :=
    map (fun r => (ra_route r ++ " (est. " ++ estimate (ra_avg r) ++ "%)")%string)
        (suggested rows) in
  match suggestions with
  | [] => "No route data available"
  | _ => join " — " suggestions
  end.

(** ** stats *)

(** A per-day bucket: its sum is not guarded against NaN. *)
Record day_bucket : Type := mkDay { day_sum : number; day_count : nat }.

Fixpoint day_add (o : list (string * day_bucket)) (d : string) (v : number)
  : list (string * day_bucket) :=
  match o with
  | [] => [(d, mkDay (nadd (Fin 0%Q) v) 1)]
  | (k, b) :: o' =>
      if k =? d then (k, mkDay (nadd (day_sum b) v) (S (day_count b))) :: o'
      else (k, b) :: day_add o' d v
  end.

(** [Number(r.value || 0)]. *)
Definition stats_value {rt : Runtime} (r : row) : number :=
  ToNumber (js_or (value r) (JNumber (Fin 0%Q))).

Definition stats_byRoute {rt : Runtime} (rows : list row) : object :=
  fold_left
    (fun o r => accumulate o (route_key r) (Some (stats_value r)))
    rows [].

(** [r.timestamp ? String(r.timestamp).slice(0, 10) : null], then the
    test [if (d)]. *)
Definition day_key {rt : Runtime} (r : row) : option string :=
  if ToBoolean (timestamp r)
  then let d := substring 0 10 (ToString (timestamp r)) in
       if d =? "" then None else Some d
  else None.

Definition stats_byDate {rt : Runtime} (rows : list row)
  : list (string * day_bucket) :=
  fold_left
    (fun o r =>
       match day_key r with
       | Some d => if inherited d then o else day_add o d (stats_value r)
       | None => o
       end)
    rows [].

(** [{ route: k, avg: count ? +(sum / count).toFixed(2) : 0 }]. *)
Record routeStat : Type := mkRouteStat { rs_route : string; rs_avg : Q }.

Definition routeStat_of (kv : string * Bucket.t) : routeStat :=
  let (k, b) := kv in
  mkRouteStat k
    (if (0 <? Bucket.count b)%nat
     then toFixed2 (Bucket.sum b / inject_Z (Z.of_nat (Bucket.count b)))%Q
     else 0%Q).

Definition routeStats {rt : Runtime} (rows : list row) : list routeStat :=
  map routeStat_of (Object_entries (stats_byRoute rows)).


End Admin.

(* ================================================================== *)
(** * Dashboard.jsx: column lists, clearing, and the side panels *)
(* ================================================================== *)

Module Panels.

Import Dashboard.

(** ** Column lists offered by the data inspector *)

(** [geoCols]: the columns whose lower-cased name contains "lat", "lon" or
    "lng". *)
Definition geoCols (columns : list string) : list string :=
  filter (fun c => includes (toLowerCase c) "lat"
                   || includes (toLowerCase c) "lon"
                   || includes (toLowerCase c) "lng") columns.

(** [numericCols]: the columns with a numeric cell in some row. *)
Definition numericCols {rt : Runtime} (columns : list string)
    (rows : list record) : list string :=
  filter (fun c => existsb (fun r => isNumeric (get r c)) rows) columns.

(** [timeCols]: the columns with a cell [tryParseDate] accepts in some
    row. *)
Definition timeCols {rt : Runtime} (columns : list string)
    (rows : list record) : list string :=
  filter (fun c =>
            existsb (fun r => match tryParseDate (get r c) with
                              | Some _ => true
                              | None => false
                              end) rows) columns.

(** ** Selecting columns and clearing *)

(** The keys of [selectedCols]. *)
Inductive col_key : Type := RouteCol | TimeCol | ValueCol | LatCol | LngCol.

(** [onSelect(k, v)]: [setSelectedCols((s) => ({ ...s, [k]: v }))]. *)
Definition onSelect (k : col_key) (v : string) (s : state) : state :=
  let c := selectedCols s in
  let c' :=
    match k with
    | RouteCol => mkSel v (timeCol c) (valueCol c) (latCol c) (lngCol c)
    | TimeCol => mkSel (routeCol c) v (valueCol c) (latCol c) (lngCol c)
    | ValueCol => mkSel (routeCol c) (timeCol c) v (latCol c) (lngCol c)
    | LatCol => mkSel (routeCol c) (timeCol c) (valueCol c) v (lngCol c)
    | LngCol => mkSel (routeCol c) (timeCol c) (valueCol c) (latCol c) v
    end in
  mkState (rows s) (columns s) (notifications s) c'
    (statsByRoute s) (series s) (predictions s) (predGroups s) (topRoutes s).

(** [clearData]. *)
Definition clearData (s : state) : state :=
  mkState [] [] (slice_to 6 ("Cleared dataset" :: notifications s))
    (mkSel "" "" "" "" "")
    (statsByRoute s) (series s) (predictions s) (predGroups s) (topRoutes s).

(** ** StoplightGame *)

Inductive light : Type := red | green.

Inductive direction : Type := north | south | east | west.

Record stoplight : Type := mkStoplight {
  north_light : light;
  south_light : light;
  east_light : light;
  west_light : light;
  game_score : Z
}.

(** [useState({ north: "red", south: "green", east: "red", west: "green",
    score: 0 })]. *)
Definition stoplight_init : stoplight := mkStoplight red green red green 0.

Definition light_of (s : stoplight) (d : direction) : light :=
  match d with
  | north => north_light s
  | south => south_light s
  | east => east_light s
  | west => west_light s
  end.

Definition set_light (s : stoplight) (d : direction) (l : light) : stoplight :=
  match d with
  | north => mkStoplight l (south_light s) (east_light s) (west_light s) (game_score s)
  | south => mkStoplight (north_light s) l (east_light s) (west_light s) (game_score s)
  | east => mkStoplight (north_light s) (south_light s) l (west_light s) (game_score s)
  | west => mkStoplight (north_light s) (south_light s) (east_light s) l (game_score s)
  end.

Definition opposite (d : direction) : direction :=
  match d with
  | north => south
  | south => north
  | east => west
  | west => east
  end.

(** [toggle(dir)]. *)
Definition toggle (d : direction) (s : stoplight) : stoplight :=
  let next := match light_of s d with green => red | red => green end in
  let newState := set_light s d next in
  let penalty :=
    match light_of newState (opposite d), next with
    | green, green => (-2)%Z
    | _, _ => 1%Z
    end in
  mkStoplight (north_light newState) (south_light newState)
    (east_light newState) (west_light newState)
    (Z.max 0 (game_score newState + penalty)).

(** ** Trivia *)

Record question : Type := mkQuestion {
  q_text : string;
  q_answer : string;
  difficulty : nat
}.

Definition baseQuestions : list question :=
  [ mkQuestion "What color indicates 'go' on a typical traffic light?" "green" 1;
    mkQuestion "Approx. what percentage can lane discipline reduce congestion (number only)?" "30" 1;
    mkQuestion "Which is typically prioritized during morning peak? (inbound/outbound)" "inbound" 2;
    mkQuestion "True or False: Roundabouts always reduce congestion compared to signals" "false" 3;
    mkQuestion "What unit measures traffic flow (vehicles per ...)? (answer 'hour' or 'minute')" "hour" 2;
    mkQuestion "If average speed decreases and volume increases, congestion usually __ (increase/decrease)." "increase" 2;
    mkQuestion "Which is a short-term traffic management tactic? (signal timing / building bridge)" "signal timing" 3;
    mkQuestion "Best immediate response for a tire burst on highway: pull to ___ and call for help (one word)" "shoulder" 2;
    mkQuestion "What does CCTV monitoring primarily help with? (detection/maintenance)" "detection" 2;
    mkQuestion "What is the main benefit of real-time routing? (save time / aesthetics)" "save time" 2 ].

Definition hardQuestions : list question :=
  [ mkQuestion "If flow (q) = k * v (density * speed) what happens when density doubles and speed halves? q __ (same/less/more)" "same" 4;
    mkQuestion "Predictive model uses which of these for short-term forecasting? (moving-average / architecture)" "moving-average" 4 ].

Record trivia : Type := mkTrivia {
  questions : list question;
  index : nat;
  answer : string;
  score : nat;
  completed : bool
}.

(** The state on mount; [saved] is the stored score of a logged-in user, 0
    for a guest. *)
Definition trivia_init (saved : nat) : trivia :=
  mkTrivia baseQuestions 0 "" saved false.

(** [(difficulty || 1) * 2]. *)
Definition points (qu : question) : nat :=
  (match difficulty qu with O => 1 | d => d end) * 2.

Section TriviaSteps.

(** [String(x).trim().toLowerCase()]. *)
Variable norm : string -> string.

(** [submit], followed by the effect that appends the hard questions when
    [completed] turns true.  Reading [questions[index].a] past the end
    throws a TypeError. *)
Definition submit (s : trivia) : result trivia :=
  if answer s =? "" then Ok s
  else
    match nth_error (questions s) (index s) with
    | None => Throw "TypeError: Cannot read properties of undefined"
    | Some qu =>
        let correct := norm (answer s) =? norm (q_answer qu) in
        let score' := if correct then score s + points qu else score s in
        let next := S (index s) in
        let completed' :=
          if (List.length (questions s) <=? next)%nat then true
          else completed s in
        let questions' :=
          if completed' && negb (completed s)
          then questions s ++ hardQuestions
          else questions s in
        Ok (mkTrivia questions' next "" score' completed')
    end.

End TriviaSteps.

(** [restart]. *)
Definition restart (s : trivia) : trivia :=
  mkTrivia baseQuestions 0 (answer s) 0 false.

(** [setAnswer(e.target.value)]. *)
Definition setAnswer (v : string) (s : trivia) : trivia :=
  mkTrivia (questions s) (index s) v (score s) (completed s).

(** ** Marketplace cart *)

Record item : Type := mkItem { id : string; title : string; price : Q }.

(** [add(it)]. *)
Definition add (it : item) (c : list item) : list item := c ++ [it].

(** [c.filter((_, idx) => idx !== i)], with [n] the index of the head. *)
Fixpoint remove_from (n i : nat) (c : list item) : list item :=
  match c with
  | [] => []
  | it :: c' =>
      if (n =? i)%nat then remove_from (S n) i c'
      else it :: remove_from (S n) i c'
  end.

(** [remove(i)]. *)
Definition remove (i : nat) (c : list item) : list item := remove_from 0 i c.

(** [cart.reduce((s, it) => s + it.price, 0).toFixed(2)] as a number. *)
Definition total (c : list item) : Q :=
  toFixed2 (fold_left (fun s it => (s + price it)%Q) c 0%Q).

(** ** Mechanics *)

Record mechanic : Type := mkMechanic {
  mech_id : string;
  mech_name : string;
  phone : string;
  location : string
}.

(** [find(q)] of the mechanic finder. *)
Definition find_mechanics (mechanics : list mechanic) (q : string)
  : list mechanic :=
  let ql := toLowerCase q in
  filter (fun m =>
            includes
              (toLowerCase (mech_name m ++ " " ++ location m ++ " " ++ phone m)%string)
              ql)
    mechanics.

End Panels.

(* ================================================================== *)
(** * AdminDashboard.jsx: dataset events, bar chart and market *)
(* ================================================================== *)

Module AdminOps.

Import Admin.

(** ** Events on the dataset *)

(** The rows of "Inject Sample". *)
Definition sample_rows (now : string) : list row :=
  [ mkRow (JString "R1") (JString now) (JNumber (Fin 44%Q))
      (JNumber (Fin 0.3476%Q)) (JNumber (Fin 32.5825%Q)) [];
    mkRow (JString "R2") (JString now) (JNumber (Fin 58%Q))
      (JNumber (Fin 0.348%Q)) (JNumber (Fin 32.58%Q)) [];
    mkRow (JString "R3") (JString now) (JNumber (Fin 30%Q))
      (JNumber (Fin 0.350%Q)) (JNumber (Fin 32.585%Q)) [] ].

(** What can happen to the rows: a completed CSV parse, a JSON paste (the
    parsed array, or [None] when the text is not JSON or not an array), a
    clear, a sample injection. *)
Inductive event : Type :=
| ImportCSV (now : string) (parsed : list record)
| ImportJSON (parsed : option (list row))
| Clear
| InjectSample (now : string).

(** [importJSONRows] on the rows. *)
Definition importJSONRows (parsed : option (list row)) (prev : list row)
  : list row :=
  match parsed with
  | Some new => slice_to ROW_CAP (new ++ prev)
  | None => prev
  end.

Definition apply_event {rt : Runtime} (e : event) (prev : list row) : list row :=
  match e with
  | ImportCSV now parsed => importCSV now parsed prev
  | ImportJSON parsed => importJSONRows parsed prev
  | Clear => clearDataset prev
  | InjectSample now => sample_rows now
  end.

Definition run {rt : Runtime} (es : list event) (prev : list row) : list row :=
  fold_left (fun rows e => apply_event e rows) es prev.

(** ** barData *)

(** [(a, b) => (b.avg || 0) - (a.avg || 0)] is not positive. *)
Definition bar_desc (a b : routeStat) : bool := Qle_bool (rs_avg b) (rs_avg a).

(** [stats.routeStats.slice().sort(...).slice(0, 8)]. *)
Definition barData {rt : Runtime} (rows : list row) : list routeStat :=
  slice_to 8 (sort bar_desc (routeStats rows)).

(** ** Market and cart *)

Record product : Type := mkProduct {
  p_id : string;
  p_title : string;
  p_price : Q;
  p_stock : Q
}.

Record order : Type := mkOrder {
  o_id : string;
  o_at : string;
  o_buyer : string;
  o_items : list product;
  o_total : Q
}.

Record shop : Type := mkShop {
  market : list product;
  cart : list product;
  orders : list order
}.

(** [market.find((m) => m.id === itemId)]. *)
Fixpoint find_product (m : list product) (itemId : string) : option product :=
  match m with
  | [] => None
  | it :: m' => if p_id it =? itemId then Some it else find_product m' itemId
  end.

(** [addToCart(itemId)]. *)
Definition addToCart (itemId : string) (s : shop) : shop :=
  match find_product (market s) itemId with
  | None => s
  | Some it =>
      if Qle_bool (p_stock it) 0%Q then s
      else mkShop (market s) (cart s ++ [it]) (orders s)
  end.

(** [cart.filter((c) => c.id === it.id).length]. *)
Definition units (c : list product) (it : product) : nat :=
  List.length (filter (fun x => p_id x =? p_id it) c).

(** [Math.max(0, it.stock - count)]. *)
Definition stock_after (c : list product) (it : product) : Q :=
  let left := (p_stock it - inject_Z (Z.of_nat (units c it)))%Q in
  if Qle_bool 0%Q left then left else 0%Q.

(** [checkoutCart(buyer)]; [oid] and [now] are the values of [uid("o_")]
    and [nowISO()]. *)
Definition checkoutCart (oid now buyer : string) (s : shop) : shop :=
  match cart s with
  | [] => s
  | _ =>
      let o :=
        mkOrder oid now buyer (cart s)
          (fold_left (fun t it => (t + p_price it)%Q) (cart s) 0%Q) in
      mkShop
        (map (fun it => mkProduct (p_id it) (p_title it) (p_price it)
                          (stock_after (cart s) it))
           (market s))
        []
        (o :: orders s)
  end.

End AdminOps.

(* ================================================================== *)
(** * The social page and the feedback page *)
(* ================================================================== *)

Module Social.

(** ** timeAgo *)

(** What [timeAgo] prints: "Just now", or an amount followed by a unit;
    the amount of an Invalid Date is NaN. *)
Inductive ago : Type :=
| JustNow
| NaNd
| Ago (n : Z) (unit : string).

(** [timeAgo(iso)] when [Date.now()] is [now]. *)
Definition timeAgo_parts {rt : Runtime} (now : Z) (iso : jsval) : ago :=
  if negb (ToBoolean iso) then JustNow
  else
    match Dashboard.new_Date iso with
    | None => NaNd
    | Some t =>
        let seconds := ((now - t) / 1000)%Z in
        if (seconds <? 60)%Z then Ago seconds "s"
        else
          let minutes := (seconds / 60)%Z in
          if (minutes <? 60)%Z then Ago minutes "m"
          else
            let hours := (minutes / 60)%Z in
            if (hours <? 24)%Z then Ago hours "h"
            else Ago (hours / 24)%Z "d"
    end.

Definition timeAgo {rt : Runtime} (now : Z) (iso : jsval) : string :=
  match timeAgo_parts now iso with
  | JustNow => "Just now"
  | NaNd => "NaNd"
  | Ago n u => (NumberToString (inject_Z n) ++ u)%string
  end.

(** ** Likes *)

(** A post as [toggleLike] reads it: [liked] is the truth value of
    [p[`liked_by_${me}`]] for the current user. *)
Record post : Type := mkPost {
  post_id : string;
  likes : Z;
  liked : bool
}.

(** [toggleLike(postId)]. *)
Definition toggleLike (postId : string) (prev : list post) : list post :=
  map (fun p =>
         if negb (post_id p =? postId) then p
         else
           mkPost (post_id p)
             (if liked p then Z.max 0 (likes p - 1) else (likes p + 1)%Z)
             (negb (liked p)))
    prev.

(** ** Follows *)

(** [copy[me]] after [followToggle(userId)]; [mine] is [prev[me]], [None]
    when the user follows nobody yet. *)
Definition followToggle (userId : string) (mine : option (list string))
  : list string :=
  let l := match mine with Some l => l | None => [] end in
  if existsb (fun x => x =? userId) l
  then filter (fun x => negb (x =? userId)) l
  else l ++ [userId].

(** ** Notifications *)

(** [pushNotification]: [[n, ...prev].slice(0, 200)]. *)
Definition pushNotification {A} (n : A) (prev : list A) : list A :=
  slice_to 200 (n :: prev).

End Social.

Module Feedback.

Record feedback : Type := mkFeedback {
  _id : string;
  message : string;
  rating : nat;
  approved : bool
}.

Definition initialFeedbacks : list feedback :=
  [ mkFeedback "1" "Great app, really helpful!" 5 true;
    mkFeedback "2" "Needs more reporting features." 3 false;
    mkFeedback "3" "UI is clean but performance can improve." 4 false ].

(** [approveFeedback(id)]. *)
Definition approveFeedback (id : string) (prev : list feedback) : list feedback :=
  map (fun f => if _id f =? id
                then mkFeedback (_id f) (message f) (rating f) true
                else f) prev.

(** [deleteFeedback(id)]. *)
Definition deleteFeedback (id : string) (prev : list feedback) : list feedback :=
  filter (fun f => negb (_id f =? id)) prev.

(** [resetFeedbacks]. *)
Definition resetFeedbacks (prev : list feedback) : list feedback :=
  initialFeedbacks.

(** [filteredFeedbacks]. *)
Definition filteredFeedbacks (filter_name : string) (feedbacks : list feedback)
  : list feedback :=
  filter (fun f =>
            if filter_name =? "approved" then approved f
            else if filter_name =? "pending" then negb (approved f)
            else true) feedbacks.

End Feedback.

(* ================================================================== *)
(** * The specification's own wording *)
(* ================================================================== *)

Module Spec.


(** Grouping rows directly: the numeric values of the rows whose group key
    is [k], in row order.  [key r] is [None] for a row that belongs to no
    group, [val r] is null ([None]), NaN or a finite number. *)
Section Grouping.
Context {R : Type} (key : R -> option string) (val : R -> option number).

Fixpoint group_values (k : string) (rows : list R) : list Q :=
  match rows with
  | [] => []
  | r :: rs =>
      match key r, val r with
      | Some k', Some (Fin q) =>
          if k' =? k then q :: group_values k rs else group_values k rs
      | _, _ => group_values k rs
      end
  end.

(** Whether some row belongs to group [k]. *)
Definition in_group (k : string) (rows : list R) : bool :=
  existsb (fun r => match key r with Some k' => k' =? k | None => false end)
    rows.

End Grouping.

Definition Qsum (l : list Q) : Q := fold_right Qplus 0%Q l.



End Spec.

(* ================================================================== *)
(** * A reference runtime for closed examples *)
(* ================================================================== *)

(** The reference runtime is exact on decimal integer literals, on
    integer-valued numbers and on ISO formatting of time values; strings it
    does not read as a non-negative integer literal are NaN as numbers, and
    no string parses as a date.  The closed examples below stay within the
    exact fragment. *)
Module Ref.

Definition string_of_Z (z : Z) : string :=
  match z with
  | Z0 => "0"
  | Zpos p => string_of_nat (Pos.to_nat p)
  | Zneg p => ("-" ++ string_of_nat (Pos.to_nat p))%string
  end.

Definition StringToNumber (s : string) : number :=
  match digits s 0 with
  | Some n => Fin (inject_Z (Z.of_N n))
  | None => NaN
  end.

Definition NumberToString (q : Q) : string :=
  let r := Qred q in
  match Qden r with
  | xH => string_of_Z (Qnum r)
  | d => (string_of_Z (Qnum r) ++ "/" ++ string_of_Z (Zpos d))%string
  end.

Definition DateToString (tv : option Z) : string :=
  match tv with
  | None => "Invalid Date"
  | Some t => ("Date " ++ string_of_Z t)%string
  end.

Definition DateParse (s : string) : option Z := None.

(** [n] printed on at least [w] digits. *)
Fixpoint zeros (n : nat) : string :=
  match n with
  | O => ""
  | S n' => String "0" (zeros n')
  end.

Definition pad (w : nat) (s : string) : string :=
  (zeros (w - String.length s) ++ s)%string.

Definition pad_Z (w : nat) (z : Z) : string := pad w (string_of_Z z).

(** Year, month and day of a day number counted from 1970-01-01. *)
Definition civil (days : Z) : Z * Z * Z :=
  let z := (days + 719468)%Z in
  let era := (z / 146097)%Z in
  let doe := (z - era * 146097)%Z in
  let yoe := ((doe - doe / 1460 + doe / 36524 - doe / 146096) / 365)%Z in
  let doy := (doe - (365 * yoe + yoe / 4 - yoe / 100))%Z in
  let mp := ((5 * doy + 2) / 153)%Z in
  let d := (doy - (153 * mp + 2) / 5 + 1)%Z in
  let m := (if (mp <? 10)%Z then mp + 3 else mp - 9)%Z in
  let y := (yoe + era * 400 + (if (m <=? 2)%Z then 1 else 0))%Z in
  (y, m, d).

Definition TimeToISOString (t : Z) : string :=
  let days := (t / 86400000)%Z in
  let ms := (t mod 86400000)%Z in
  let '(y, m, d) := civil days in
  let year :=
    if ((0 <=? y) && (y <=? 9999))%Z then pad_Z 4 y
    else ((if (y <? 0)%Z then "-" else "+") ++ pad_Z 6 (Z.abs y))%string in
  (year ++ "-" ++ pad_Z 2 m ++ "-" ++ pad_Z 2 d ++ "T"
   ++ pad_Z 2 (ms / 3600000) ++ ":" ++ pad_Z 2 ((ms / 60000) mod 60) ++ ":"
   ++ pad_Z 2 ((ms / 1000) mod 60) ++ "." ++ pad_Z 3 (ms mod 1000) ++ "Z")%string.

End Ref.

(** The reference runtime meets the laws of a runtime. *)

Lemma string_of_nat_nonempty (n : nat) : string_of_nat n <> "".
Proof.
  unfold string_of_nat, NilZero.string_of_uint.
  destruct (Nat.to_uint n); simpl; discriminate.
Qed.

Lemma string_of_Z_nonempty (z : Z) : Ref.string_of_Z z <> "".
Proof.
  destruct z; simpl; try discriminate.
  apply string_of_nat_nonempty.
Qed.

Lemma append_nonempty_l (a b : string) : a <> "" -> (a ++ b)%string <> "".
Proof. destruct a; simpl; [congruence | discriminate]. Qed.

Lemma Ref_NumberToString_nonempty (q : Q) : Ref.NumberToString q <> "".
Proof.
  unfold Ref.NumberToString.
  destruct (Qden (Qred q));
    first [ apply string_of_Z_nonempty
          | apply append_nonempty_l, string_of_Z_nonempty ].
Qed.

Lemma Ref_DateToString_nonempty (tv : option Z) : Ref.DateToString tv <> "".
Proof. destruct tv; simpl; discriminate. Qed.

Definition refRuntime : Runtime :=
  {| StringToNumber := Ref.StringToNumber;
     NumberToString := Ref.NumberToString;
     DateToString := Ref.DateToString;
     DateParse := Ref.DateParse;
     TimeToISOString := Ref.TimeToISOString;
     NumberToString_nonempty := Ref_NumberToString_nonempty;
     DateToString_nonempty := Ref_DateToString_nonempty |}.

(* ================================================================== *)
(** * Definitions used by the statements *)
(* ================================================================== *)

Import Dashboard.

(** The aggregation loop over any kind of row: [key r] is the group of a
    row, [None] for a row the loop skips, and [val r] the value it
    contributes. *)
Definition aggregate {R : Type} (key : R -> option string)
    (val : R -> option number) (o : object) (rows : list R) : object :=
  fold_left
    (fun o r =>
       match key r with
       | Some k => accumulate o k (val r)
       | None => o
       end)
    rows o.

(** A bucket after the values [vs] were added to it, in order. *)
Definition add_all (vs : list Q) (b : Bucket.t) : Bucket.t :=
  fold_left (fun b q => Bucket.add q b) vs b.

(** What one value does to a bucket. *)
Definition apply_value (v : option number) (b : Bucket.t) : Bucket.t :=
  match v with
  | Some (Fin q) => Bucket.add q b
  | _ => b
  end.

(** The numeric values of the rows of route [k], grouped directly. *)
Definition route_values {rt : Runtime} (routeCol valueCol : string)
    (k : string) (rows : list record) : list Q :=
  Spec.group_values (fun r => Some (route_key routeCol r))
    (fun r => numeric_value (get r valueCol)) k rows.

(** The numeric values of the rows of minute [k], grouped directly. *)
Definition minute_values {rt : Runtime} (timeCol valueCol : string)
    (k : string) (rows : list record) : list Q :=
  Spec.group_values (time_key timeCol)
    (fun r => numeric_value (get r valueCol)) k rows.

(** No row carries an Invalid Date. *)
Definition dates_valid {rt : Runtime} (timeCol : string) (rows : list record)
  : Prop :=
  Forall (fun r => tryParseDate (get r timeCol) <> Some None) rows.

(** The values the admin statistics fold, grouped directly: every row
    contributes [Number(r.value || 0)] unless that is NaN. *)
Definition admin_values {rt : Runtime} (k : string) (rows : list Admin.row)
  : list Q :=
  Spec.group_values (fun r => Some (Admin.route_key r))
    (fun r => Some (Admin.stats_value r)) k rows.

(** The non-null numeric values of the rows of route [k]: a null value
    contributes nothing. *)
Definition admin_nonnull_values {rt : Runtime} (k : string)
    (rows : list Admin.row) : list Q :=
  Spec.group_values (fun r => Some (Admin.route_key r))
    (fun r => if is_null (Admin.value r) then None
              else Some (ToNumber (Admin.value r))) k rows.



(** The state of a freshly mounted dashboard. *)
Definition fresh : state :=
  mkState [] [] [] (mkSel "" "" "" "" "") [] [] [] [] [].

(** Scenario A: the rows R1:40, R1:60, R2:10. *)
Definition scenario_A : list record :=
  [ [("route", JString "R1"); ("value", JNumber (Fin 40%Q))];
    [("route", JString "R1"); ("value", JNumber (Fin 60%Q))];
    [("route", JString "R2"); ("value", JNumber (Fin 10%Q))] ].

(** Two uploads with the columns route and congestion. *)
Definition upload_1 : list record :=
  [ [("route", JString "R1"); ("congestion", JNumber (Fin 40%Q))];
    [("route", JString "R1"); ("congestion", JNumber (Fin 60%Q))];
    [("route", JString "R2"); ("congestion", JNumber (Fin 10%Q))] ].

Definition upload_2 : list record :=
  [ [("route", JString "R3"); ("congestion", JNumber (Fin 5%Q))] ].

(** A time cell holding the number 9e15, beyond the range of Date. *)
Definition out_of_range_row : record :=
  [("time", JNumber (Fin 9000000000000000%Q)); ("speed", JNumber (Fin 1%Q))].

(** Scenario E: a record with latitude 95. *)
Definition scenario_E : record :=
  [("route", JString "R1"); ("lat", JNumber (Fin 95%Q));
   ("lng", JNumber (Fin 32%Q)); ("value", JNumber (Fin 7%Q))].

(** A chain [v1 || v2 || ... || d]. *)
Definition first_truthy (vs : list jsval) (d : jsval) : jsval :=
  fold_right js_or d vs.


(* ================================================================== *)
(** * Definitions used by the further properties *)
(* ================================================================== *)

(** ** Dashboard analytics *)

(** The label given to an average once both thresholds are numbers. *)
Definition label_with (q1 q3 : Q) (a : option Q) : string :=
  match a with
  | None => "NoData"
  | Some x =>
      if ge_threshold x (Some q3) then "Heavy"
      else if le_threshold x (Some q1) then "Light"
      else "Moderate"
  end.

(** The number of predictions carrying a label. *)
Definition labelled (k : string) (preds : list prediction_row) : nat :=
  List.length (filter (fun p => prediction p =? k) preds).

(** The sum of the counts of an object's buckets. *)
Definition total_count (o : object) : nat :=
  list_sum (map (fun kv => Bucket.count (snd kv)) o).

(** Whether a row adds one to a bucket. *)
Definition counted {R : Type} (key : R -> option string)
    (val : R -> option number) (r : R) : bool :=
  match key r, val r with
  | Some k, Some (Fin _) => negb (inherited k)
  | _, _ => false
  end.


(** A time cell that passes the guard of [tryParseDate], is no valid date
    and coerces to a number above the largest time value. *)
Definition beyond_Date_range {rt : Runtime} (v : jsval) : Prop :=
  ToBoolean v = true /\ new_Date v = None
  /\ exists n, ToNumber v = Fin n /\ (8.64e15 < n)%Q.

(** Whether the lower-cased name of a field contains one of the keys. *)
Definition matches (keys : list string) (c : string) : bool :=
  existsb (fun k => includes (toLowerCase c) k) keys.

(** The derived views of a state are empty. *)
Definition views_empty (s : state) : Prop :=
  statsByRoute s = [] /\ predictions s = [] /\ topRoutes s = []
  /\ series s = [].

(** ** Admin dashboard *)

(** Null, or a number other than 0. *)
Definition null_or_nonzero (v : jsval) : Prop :=
  v = JNull \/ exists q, v = JNumber (Fin q) /\ ~ (q == 0)%Q.

(** The rows of route [k]. *)
Definition rows_of_route {rt : Runtime} (k : string) (rows : list Admin.row)
  : list Admin.row :=
  filter (fun r => Admin.route_key r =? k) rows.

(** The bucket of day [d] in the per-day object. *)
Fixpoint day_lookup (o : list (string * Admin.day_bucket)) (d : string)
  : option Admin.day_bucket :=
  match o with
  | [] => None
  | (k, b) :: o' => if k =? d then Some b else day_lookup o' d
  end.

(** The rows of day [d]. *)
Definition day_rows {rt : Runtime} (d : string) (rows : list Admin.row)
  : list Admin.row :=
  filter (fun r => match Admin.day_key r with
                   | Some d' => d' =? d
                   | None => false
                   end) rows.

(** [0 + v1 + ... + vn]. *)
Definition nsum (vs : list number) : number := fold_left nadd vs (Fin 0%Q).

(** A day's bucket after more values. *)
Definition day_after (ob : option Admin.day_bucket) (vs : list number)
  : option Admin.day_bucket :=
  fold_left
    (fun ob v =>
       Some match ob with
            | Some b => Admin.mkDay (nadd (Admin.day_sum b) v) (S (Admin.day_count b))
            | None => Admin.mkDay (nadd (Fin 0%Q) v) 1
            end)
    vs ob.

(** The order of the bar chart: averages from highest to lowest. *)
Definition by_bar_desc (a b : Admin.routeStat) : Prop :=
  (Admin.rs_avg b <= Admin.rs_avg a)%Q.

(** A market of two products and a cart holding three vests. *)
Definition vest : AdminOps.product :=
  AdminOps.mkProduct "m1" "High-visibility Vest" 19.99%Q 2%Q.

Definition inflator : AdminOps.product :=
  AdminOps.mkProduct "m2" "Portable Tire Inflator" 49.99%Q 12%Q.

(** ** Admin recommendation *)



(** ** Social page *)

(** The units of [timeAgo] and their length in milliseconds. *)
Definition ago_units : list (string * Z) :=
  [("s", 1000%Z); ("m", 60000%Z); ("h", 3600000%Z); ("d", 86400000%Z)].

(** A like counter that agrees with the like flag. *)
Definition like_ok (p : Social.post) : Prop :=
  (0 <= Social.likes p)%Z
  /\ (Social.liked p = true -> (1 <= Social.likes p)%Z).

(** The list a user follows. *)
Definition following (mine : option (list string)) : list string :=
  match mine with Some l => l | None => [] end.

(** ** Side panels *)

(** The game after a sequence of clicks. *)
Definition play (ds : list Panels.direction) (s : Panels.stoplight)
  : Panels.stoplight :=
  fold_left (fun s d => Panels.toggle d s) ds s.

(** The other colour. *)
Definition flip (l : Panels.light) : Panels.light :=
  match l with Panels.green => Panels.red | Panels.red => Panels.green end.

(** The points of a list of questions. *)
Definition points_of (l : list Panels.question) : nat :=
  list_sum (map Panels.points l).

(** The game after a right answer to the first question. *)
Definition first_answered : Panels.trivia :=
  Panels.mkTrivia Panels.baseQuestions 1 "" 2 false.

Section TriviaStates.

Variable norm : string -> string.
Variable saved : nat.

(** States the player can reach: the Submit button is shown only while the
    game is not completed. *)
Inductive reachable : Panels.trivia -> Prop :=
| reach_init : reachable (Panels.trivia_init saved)
| reach_type v s : reachable s -> reachable (Panels.setAnswer v s)
| reach_restart s : reachable s -> reachable (Panels.restart s)
| reach_submit s s' :
    reachable s -> Panels.completed s = false ->
    Panels.submit norm s = Ok s' -> reachable s'.

(** What holds in every reachable state. *)
Definition trivia_inv (s : Panels.trivia) : Prop :=
  Panels.score s <= saved + points_of (firstn (Panels.index s) Panels.baseQuestions)
  /\ ((Panels.completed s = false
       /\ Panels.questions s = Panels.baseQuestions
       /\ Panels.index s < 10)
      \/ (Panels.completed s = true
          /\ Panels.questions s = Panels.baseQuestions ++ Panels.hardQuestions
          /\ Panels.index s = 10)).

End TriviaStates.

(* ================================================================== *)
(** * Properties *)
(* ================================================================== *)

(** Splits a conjunction into its parts, one goal each. *)
Ltac conjs := repeat lazymatch goal with |- _ /\ _ => split end.

(** ** Sorting *)

Section SortFacts.
Context {A : Type} (le : A -> A -> bool).

Lemma insert_perm (x : A) (l : list A) : Permutation (insert le x l) (x :: l).
Proof.
  induction l as [|y l IH]; simpl.
  - reflexivity.
  - destruct (le x y).
    + reflexivity.
    + rewrite IH. apply perm_swap.
Qed.

Lemma sort_perm (l : list A) : Permutation (sort le l) l.
Proof.
  induction l as [|x l IH]; simpl.
  - constructor.
  - rewrite insert_perm. now constructor.
Qed.

Lemma sort_length (l : list A) : List.length (sort le l) = List.length l.
Proof. apply Permutation_length, sort_perm. Qed.

Lemma sort_In (x : A) (l : list A) : In x (sort le l) <-> In x l.
Proof.
  split; apply Permutation_in; [| symmetry]; apply sort_perm.
Qed.

Hypothesis le_total : forall a b, le a b = true \/ le b a = true.

Lemma insert_HdRel (a x : A) (l : list A) :
  le a x = true -> HdRel (fun u v => le u v = true) a l ->
  HdRel (fun u v => le u v = true) a (insert le x l).
Proof.
  intros Hax Hl. destruct l as [|y l]; simpl.
  - now constructor.
  - destruct (le x y); constructor; auto.
    now inversion Hl.
Qed.

Lemma insert_sorted (x : A) (l : list A) :
  Sorted (fun u v => le u v = true) l ->
  Sorted (fun u v => le u v = true) (insert le x l).
Proof.
  induction 1 as [|y l Hs IH Hhd]; simpl.
  - repeat constructor.
  - destruct (le x y) eqn:E.
    + constructor; [now constructor | now constructor].
    + constructor; [exact IH |].
      apply insert_HdRel; [| exact Hhd].
      destruct (le_total x y); congruence.
Qed.

Lemma sort_sorted (l : list A) : Sorted (fun u v => le u v = true) (sort le l).
Proof.
  induction l as [|x l IH]; simpl.
  - constructor.
  - now apply insert_sorted.
Qed.

End SortFacts.

Lemma Qle_bool_total (a b : Q) : Qle_bool a b = true \/ Qle_bool b a = true.
Proof.
  rewrite !Qle_bool_iff. destruct (Qlt_le_dec a b) as [H|H].
  - left. now apply Qlt_le_weak.
  - now right.
Qed.


(** ** Quartile positions *)

Lemma floor_mul_quarter (n : nat) : floor_mul n 0.25%Q = n / 4.
Proof.
  unfold floor_mul, Qfloor, Qmult, inject_Z. cbn [Qnum Qden].
  change ((Z.of_nat n * 25) / Z.pos (1 * 100))%Z
    with ((Z.of_nat n * 25) / (4 * 25))%Z.
  rewrite Z.div_mul_cancel_r by lia.
  rewrite <- (Nat2Z.id (n / 4)). f_equal.
  rewrite Nat2Z.inj_div. reflexivity.
Qed.

Lemma floor_mul_three_quarters (n : nat) : floor_mul n 0.75%Q = 3 * n / 4.
Proof.
  unfold floor_mul, Qfloor, Qmult, inject_Z. cbn [Qnum Qden].
  change ((Z.of_nat n * 75) / Z.pos (1 * 100))%Z
    with ((Z.of_nat n * (3 * 25)) / (4 * 25))%Z.
  rewrite Z.mul_assoc, Z.div_mul_cancel_r by lia.
  rewrite <- (Nat2Z.id (3 * n / 4)). f_equal.
  rewrite Nat2Z.inj_div, Nat2Z.inj_mul. f_equal. lia.
Qed.

(** ** The quartile classifier *)

Lemma numeric_avgs_In (groups : list stat) (a : Q) :
  In a (numeric_avgs groups) <-> exists g, In g groups /\ avg g = Some a.
Proof.
  induction groups as [|g gs IH]; simpl.
  - split; [tauto | intros (g & [] & _)].
  - destruct (avg g) as [b|] eqn:E; simpl; rewrite IH; split.
    + intros [<- | (g' & Hin & Hg')]; eauto.
    + intros (g' & [<- | Hin] & Hg'); [left; congruence | eauto].
    + intros (g' & Hin & Hg'); eauto.
    + intros (g' & [<- | Hin] & Hg'); [congruence | eauto].
Qed.

Lemma numeric_avgs_nil (groups : list stat) :
  numeric_avgs groups = [] <-> forall g, In g groups -> avg g = None.
Proof.
  split.
  - intros Hnil g Hin. destruct (avg g) as [a|] eqn:E; [| reflexivity].
    assert (In a (numeric_avgs groups)) as Ha
      by (apply numeric_avgs_In; eauto).
    rewrite Hnil in Ha. destruct Ha.
  - intros Hall. destruct (numeric_avgs groups) as [|a l] eqn:E; [reflexivity |].
    assert (In a (numeric_avgs groups)) as Ha by (rewrite E; now left).
    apply numeric_avgs_In in Ha as (g & Hin & Hg).
    rewrite (Hall g Hin) in Hg. discriminate.
Qed.

Lemma quarter_lt (n : nat) : 0 < n -> n / 4 < n /\ 3 * n / 4 < n.
Proof.
  intros Hn. split.
  - apply Nat.Div0.div_lt_upper_bound. lia.
  - apply Nat.Div0.div_lt_upper_bound. lia.
Qed.

Lemma nth_error_in_bounds {A} (l : list A) (i : nat) :
  i < List.length l -> exists x, nth_error l i = Some x.
Proof.
  intros Hi. destruct (nth_error l i) as [x|] eqn:E; [eauto |].
  apply nth_error_None in E. lia.
Qed.


(** Both quartile reads of a non-empty sorted array of averages return an
    element. *)
Lemma quartile_reads (avgs : list Q) :
  avgs <> [] ->
  let sorted := sort Qle_bool avgs in
  let n := List.length sorted in
  floor_mul n 0.25%Q < n /\ floor_mul n 0.75%Q < n /\
  exists q1 q3,
    nth_error sorted (floor_mul n 0.25%Q) = Some q1 /\
    nth_error sorted (floor_mul n 0.75%Q) = Some q3.
Proof.
  intros Hne sorted n.
  assert (0 < n) as Hn.
  { subst n sorted. rewrite sort_length. destruct avgs; simpl; [congruence | lia]. }
  rewrite floor_mul_quarter, floor_mul_three_quarters.
  destruct (quarter_lt n Hn) as [H1 H3].
  destruct (nth_error_in_bounds sorted (n / 4) H1) as [q1 E1].
  destruct (nth_error_in_bounds sorted (3 * n / 4) H3) as [q3 E3].
  repeat split; try assumption. exists q1, q3. now split.
Qed.

(** C10.  With n >= 1 defined averages, floor(n * 0.25) and floor(n * 0.75)
    are below n, so both quartile reads hit an element of the sorted array
    and the Heavy and Light comparisons are made against numbers. *)
Theorem quartile_lookups_in_bounds (avgs : list Q) :
  avgs <> [] ->
  let sorted := sort Qle_bool avgs in
  let n := List.length sorted in
  floor_mul n 0.25%Q < n /\ floor_mul n 0.75%Q < n /\
  exists q1 q3,
    nth_error sorted (floor_mul n 0.25%Q) = Some q1 /\
    nth_error sorted (floor_mul n 0.75%Q) = Some q3 /\
    forall a,
      ge_threshold a (nth_error sorted (floor_mul n 0.75%Q)) = Qle_bool q3 a /\
      le_threshold a (nth_error sorted (floor_mul n 0.25%Q)) = Qle_bool a q1.
Proof.
  intros Hne sorted n.
  destruct (quartile_reads avgs Hne) as (H1 & H3 & q1 & q3 & E1 & E3).
  fold sorted n in H1, H3, E1, E3.
  split; [exact H1 |]. split; [exact H3 |].
  exists q1, q3. rewrite E1, E3. repeat split.
Qed.

Lemma quartile_lookups_in_bounds_witness :
  let sorted := sort Qle_bool [50%Q; 10%Q] in
  let n := List.length sorted in
  floor_mul n 0.25%Q < n /\ floor_mul n 0.75%Q < n /\
  exists q1 q3,
    nth_error sorted (floor_mul n 0.25%Q) = Some q1 /\
    nth_error sorted (floor_mul n 0.75%Q) = Some q3 /\
    forall a,
      ge_threshold a (nth_error sorted (floor_mul n 0.75%Q)) = Qle_bool q3 a /\
      le_threshold a (nth_error sorted (floor_mul n 0.25%Q)) = Qle_bool a q1.
Proof.
  apply (quartile_lookups_in_bounds [50%Q; 10%Q]). discriminate.
Defined.



(** Scenario B: two routes with averages 50 and 10. *)
Example simplePredictor_two_routes :
  map prediction
    (simplePredictor [mkStat "R1" (Some 50%Q) 2; mkStat "R2" (Some 10%Q) 1])
  = ["Heavy"; "Light"].
Proof. reflexivity. Qed.

(** The claim of C4 fails on a single route without an average: the label
    is "Unknown", not "NoData". *)
Lemma simplePredictor_empty_not_NoData :
  ~ (forall groups,
       numeric_avgs groups = [] ->
       Forall (fun p => prediction p = "NoData") (simplePredictor groups)).
Proof.
  intros H. specialize (H [mkStat "R1" None 0] eq_refl).
  inversion H as [|p l Hp _]. simpl in Hp. discriminate.
Qed.

(** C4, amended.  When no route has a defined numeric average, the
    classifier keeps every route, in order, and labels each "Unknown". *)
Theorem simplePredictor_no_averages (groups : list stat) :
  (forall g, In g groups -> avg g = None) ->
  simplePredictor groups = map (fun g => mkPred g "Unknown") groups
  /\ Forall (fun p => prediction p = "Unknown") (simplePredictor groups)
  /\ List.length (simplePredictor groups) = List.length groups.
Proof.
  intros Hall. apply numeric_avgs_nil in Hall.
  assert (simplePredictor groups = map (fun g => mkPred g "Unknown") groups) as E.
  { unfold simplePredictor. rewrite Hall. reflexivity. }
  rewrite E. split; [reflexivity |]. split.
  - apply Forall_forall. intros p Hp.
    apply in_map_iff in Hp as (g & <- & _). reflexivity.
  - apply length_map.
Qed.

Lemma simplePredictor_no_averages_witness :
  simplePredictor [mkStat "R1" None 0; mkStat "R2" None 0]
  = map (fun g => mkPred g "Unknown") [mkStat "R1" None 0; mkStat "R2" None 0]
  /\ Forall (fun p => prediction p = "Unknown")
       (simplePredictor [mkStat "R1" None 0; mkStat "R2" None 0])
  /\ List.length (simplePredictor [mkStat "R1" None 0; mkStat "R2" None 0])
     = List.length [mkStat "R1" None 0; mkStat "R2" None 0].
Proof.
  apply (simplePredictor_no_averages [mkStat "R1" None 0; mkStat "R2" None 0]).
  intros g [<- | [<- | []]]; reflexivity.
Defined.

(** ** Objects: lookups after the aggregation step *)

Lemma lookup_app (o o' : object) (k : string) :
  lookup (o ++ o') k
  = match lookup o k with Some b => Some b | None => lookup o' k end.
Proof.
  induction o as [|[k0 b0] o IH]; simpl; [reflexivity |].
  destruct (k0 =? k); [reflexivity | exact IH].
Qed.

Lemma lookup_update (o : object) (k k' : string) (f : Bucket.t -> Bucket.t) :
  lookup (update o k f) k'
  = if k =? k' then option_map f (lookup o k') else lookup o k'.
Proof.
  induction o as [|[k0 b0] o IH]; simpl.
  - now destruct (k =? k').
  - destruct (String.eqb_spec k0 k) as [-> | Hk]; simpl.
    + destruct (String.eqb_spec k k'); reflexivity.
    + rewrite IH.
      destruct (String.eqb_spec k k') as [<- | Hk'];
        destruct (String.eqb_spec k0 k); try congruence; reflexivity.
Qed.

Lemma lookup_accumulate (o : object) (k k' : string) (v : option number) :
  lookup (accumulate o k v) k'
  = if inherited k then lookup o k'
    else if k =? k'
         then Some (apply_value v
                      (match lookup o k with
                       | Some b => b
                       | None => Bucket.zero
                       end))
         else lookup o k'.
Proof.
  unfold accumulate. destruct (inherited k); [reflexivity |].
  assert (forall o1,
            lookup (match v with
                    | Some (Fin q) => update o1 k (Bucket.add q)
                    | _ => o1
                    end) k'
            = if k =? k' then option_map (apply_value v) (lookup o1 k')
              else lookup o1 k') as Hv.
  { intros o1. destruct v as [[|q]|]; simpl;
      rewrite ?lookup_update;
      destruct (k =? k'); try reflexivity; now destruct (lookup o1 k'). }
  rewrite Hv.
  destruct (String.eqb_spec k k') as [<- | Hk].
  - destruct (lookup o k) as [b|] eqn:E; [now rewrite E |].
    rewrite lookup_app, E. simpl. now rewrite String.eqb_refl.
  - destruct (lookup o k) as [b|] eqn:E; [reflexivity |].
    rewrite lookup_app. destruct (lookup o k'); [reflexivity |].
    simpl. destruct (String.eqb_spec k k'); congruence.
Qed.

Lemma update_keys (o : object) (k : string) (f : Bucket.t -> Bucket.t) :
  map fst (update o k f) = map fst o.
Proof.
  induction o as [|[k0 b0] o IH]; simpl; [reflexivity |].
  destruct (k0 =? k); simpl; congruence.
Qed.

Lemma lookup_None_not_In (o : object) (k : string) :
  lookup o k = None -> ~ In k (map fst o).
Proof.
  induction o as [|[k0 b0] o IH]; simpl; [tauto |].
  destruct (String.eqb_spec k0 k); [discriminate |].
  intros E [H | H]; [congruence | now apply IH].
Qed.

Lemma lookup_In (o : object) (k : string) (b : Bucket.t) :
  lookup o k = Some b -> In (k, b) o.
Proof.
  induction o as [|[k0 b0] o IH]; simpl; [discriminate |].
  destruct (String.eqb_spec k0 k) as [-> | _].
  - intros [= ->]. now left.
  - intros E. right. now apply IH.
Qed.

Lemma In_lookup (o : object) (k : string) (b : Bucket.t) :
  NoDup (map fst o) -> In (k, b) o -> lookup o k = Some b.
Proof.
  induction o as [|[k0 b0] o IH]; simpl; [tauto |].
  intros Hnd [[= -> ->] | Hin].
  - now rewrite String.eqb_refl.
  - inversion Hnd as [|? ? Hnotin Hnd']; subst.
    destruct (String.eqb_spec k0 k) as [-> | _]; [| now apply IH].
    exfalso. apply Hnotin. apply in_map_iff. now exists (k, b).
Qed.

Lemma accumulate_NoDup (o : object) (k : string) (v : option number) :
  NoDup (map fst o) -> NoDup (map fst (accumulate o k v)).
Proof.
  intros Hnd. unfold accumulate. destruct (inherited k); [exact Hnd |].
  assert (NoDup (map fst (match lookup o k with
                          | Some _ => o
                          | None => o ++ [(k, Bucket.zero)]
                          end))) as H1.
  { destruct (lookup o k) eqn:E; [exact Hnd |].
    rewrite map_app. simpl. apply NoDup_app; [exact Hnd | | ].
    - repeat constructor. intros [].
    - intros x Hx [<- | []]. revert Hx. now apply lookup_None_not_In. }
  destruct v as [[|q]|]; try exact H1. now rewrite update_keys.
Qed.

Lemma Object_entries_In (o : object) (kv : string * Bucket.t) :
  In kv (Object_entries o) <-> In kv o.
Proof.
  unfold Object_entries. rewrite in_app_iff, sort_In, !filter_In.
  destruct (is_index kv); simpl; intuition congruence.
Qed.

Lemma Object_entries_perm (o : object) : Permutation (Object_entries o) o.
Proof.
  unfold Object_entries. rewrite sort_perm.
  induction o as [|kv o IH]; simpl; [constructor |].
  destruct (is_index kv); simpl.
  - now constructor.
  - rewrite <- Permutation_middle. now constructor.
Qed.

(** ** The aggregation loop against direct grouping *)

Section Aggregation.
Context {R : Type} (key : R -> option string) (val : R -> option number).

Lemma add_all_count (vs : list Q) (b : Bucket.t) :
  Bucket.count (add_all vs b) = Bucket.count b + List.length vs.
Proof.
  revert b. induction vs as [|q vs IH]; intros b; simpl; [lia |].
  unfold add_all in *. simpl. rewrite IH. simpl. lia.
Qed.

Lemma add_all_sum (vs : list Q) (b : Bucket.t) :
  (Bucket.sum (add_all vs b) == Bucket.sum b + Spec.Qsum vs)%Q.
Proof.
  revert b. induction vs as [|q vs IH]; intros b; simpl.
  - unfold add_all. simpl. ring.
  - unfold add_all in *. simpl. rewrite IH. simpl. ring.
Qed.

Lemma lookup_aggregate (rows : list R) (o : object) (k : string) :
  lookup (aggregate key val o rows) k
  = if inherited k then lookup o k
    else match lookup o k with
         | Some b => Some (add_all (Spec.group_values key val k rows) b)
         | None =>
             if Spec.in_group key k rows
             then Some (add_all (Spec.group_values key val k rows) Bucket.zero)
             else None
         end.
Proof.
  revert o. induction rows as [|r rs IH]; intros o.
  - simpl. destruct (inherited k), (lookup o k); reflexivity.
  - unfold aggregate in *. cbn [fold_left]. rewrite IH. clear IH.
    cbn [Spec.group_values Spec.in_group existsb].
    destruct (key r) as [k0|]; [| reflexivity].
    rewrite lookup_accumulate.
    destruct (inherited k) eqn:Ik.
    + destruct (inherited k0) eqn:Ik0; [reflexivity |].
      destruct (String.eqb_spec k0 k); [congruence | reflexivity].
    + destruct (String.eqb_spec k0 k) as [-> | Hk].
      * rewrite Ik. cbn [orb].
        destruct (lookup o k) as [b|], (val r) as [[|q]|]; reflexivity.
      * cbn [orb].
        destruct (inherited k0), (val r) as [[|q]|]; reflexivity.
Qed.

Lemma aggregate_NoDup (rows : list R) (o : object) :
  NoDup (map fst o) -> NoDup (map fst (aggregate key val o rows)).
Proof.
  revert o. induction rows as [|r rs IH]; intros o Hnd; [exact Hnd |].
  unfold aggregate in *. cbn [fold_left]. apply IH.
  destruct (key r); [now apply accumulate_NoDup | exact Hnd].
Qed.

(** Every bucket of the view holds the count and the sum of the numeric
    values of its group. *)
Lemma aggregate_bucket (rows : list R) (k : string) (b : Bucket.t) :
  lookup (aggregate key val [] rows) k = Some b ->
  Bucket.count b = List.length (Spec.group_values key val k rows)
  /\ (Bucket.sum b == Spec.Qsum (Spec.group_values key val k rows))%Q
  /\ inherited k = false
  /\ Spec.in_group key k rows = true.
Proof.
  rewrite lookup_aggregate. simpl.
  destruct (inherited k); [discriminate |].
  destruct (Spec.in_group key k rows); [| discriminate].
  intros [= <-]. rewrite add_all_count.
  repeat split. rewrite add_all_sum. simpl. ring.
Qed.

(** A group shows in the view as soon as one row carries its key. *)
Lemma aggregate_bucket_exists (rows : list R) (k : string) :
  inherited k = false -> Spec.in_group key k rows = true ->
  exists b, lookup (aggregate key val [] rows) k = Some b.
Proof.
  intros Ik Hg. rewrite lookup_aggregate, Ik, Hg. simpl. eauto.
Qed.

End Aggregation.

(** ** Rounding to two decimals *)





(** ** Route and time aggregates of the dashboard *)

Lemma byRoute_aggregate {rt : Runtime} (routeCol valueCol : string)
    (rows : list record) :
  byRoute routeCol valueCol rows
  = aggregate (fun r => Some (route_key routeCol r))
      (fun r => numeric_value (get r valueCol)) [] rows.
Proof. reflexivity. Qed.

Lemma series_fold_Throw {rt : Runtime} (timeCol valueCol e : string)
    (rows : list record) :
  fold_left (series_step timeCol valueCol) rows (Throw e) = Throw e.
Proof. induction rows as [|r rs IH]; simpl; [reflexivity | exact IH]. Qed.

Lemma series_fold_Ok {rt : Runtime} (timeCol valueCol : string)
    (rows : list record) (o0 : object) :
  dates_valid timeCol rows ->
  fold_left (series_step timeCol valueCol) rows (Ok o0)
  = Ok (aggregate (time_key timeCol)
          (fun r => numeric_value (get r valueCol)) o0 rows).
Proof.
  intros Hv. revert o0. induction Hv as [|r rs Hr _ IH]; intros o0.
  - reflexivity.
  - unfold aggregate in *. cbn [fold_left]. unfold series_step at 2, time_key at 2.
    destruct (tryParseDate (get r timeCol)) as [[t|]|]; [apply IH | congruence | apply IH].
Qed.

Lemma series_fold_Ok_inv {rt : Runtime} (timeCol valueCol : string)
    (rows : list record) (o0 o : object) :
  fold_left (series_step timeCol valueCol) rows (Ok o0) = Ok o ->
  dates_valid timeCol rows.
Proof.
  revert o0. induction rows as [|r rs IH]; intros o0 H; [constructor |].
  cbn [fold_left] in H. unfold series_step at 2 in H.
  destruct (tryParseDate (get r timeCol)) as [[t|]|] eqn:E.
  - constructor; [congruence | eapply IH; eassumption].
  - rewrite series_fold_Throw in H. discriminate.
  - constructor; [congruence | eapply IH; eassumption].
Qed.

(** The per-minute fold returns exactly when no row carries an Invalid
    Date, and then it is the aggregation of the rows by [time_key]. *)
Lemma byDate_Ok_iff {rt : Runtime} (timeCol valueCol : string)
    (rows : list record) (o : object) :
  byDate timeCol valueCol rows = Ok o <->
  dates_valid timeCol rows
  /\ o = aggregate (time_key timeCol)
           (fun r => numeric_value (get r valueCol)) [] rows.
Proof.
  unfold byDate. split.
  - intros H. pose proof (series_fold_Ok_inv _ _ _ _ _ H) as Hv.
    split; [exact Hv |]. rewrite series_fold_Ok in H by exact Hv. congruence.
  - intros [Hv ->]. now apply series_fold_Ok.
Qed.

(** ** Aggregates of the admin dashboard *)

Lemma stats_byRoute_aggregate {rt : Runtime} (rows : list Admin.row) :
  Admin.stats_byRoute rows
  = aggregate (fun r => Some (Admin.route_key r))
      (fun r => Some (Admin.stats_value r)) [] rows.
Proof. reflexivity. Qed.

Lemma stats_value_null {rt : Runtime} (r : Admin.row) :
  Admin.value r = JNull -> Admin.stats_value r = Fin 0%Q.
Proof. unfold Admin.stats_value. intros ->. reflexivity. Qed.


Lemma aggregate_entry {R : Type} (key : R -> option string)
    (val : R -> option number) (rows : list R) (k : string) (b : Bucket.t) :
  In (k, b) (Object_entries (aggregate key val [] rows)) <->
  lookup (aggregate key val [] rows) k = Some b.
Proof.
  rewrite Object_entries_In. split.
  - apply In_lookup, aggregate_NoDup. constructor.
  - apply lookup_In.
Qed.


(** The claim of C5 fails on the admin statistics: a row whose normalised
    value is null is counted in its bucket. *)
Lemma admin_null_value_is_counted :
  ~ (forall (rt : Runtime) (rows : list Admin.row) (k : string) (b : Bucket.t),
       lookup (Admin.stats_byRoute rows) k = Some b ->
       Bucket.count b = List.length (admin_nonnull_values k rows)).
Proof.
  intros H.
  specialize (H refRuntime
                [@Admin.normalize refRuntime "2024-01-01T00:00:00.000Z"
                   [("route", JString "R1"); ("value", JNull)]]
                "R1" (Bucket.mk 0%Q 1) eq_refl).
  vm_compute in H. discriminate.
Qed.

(** C5, amended.  In the dashboard's per-route and per-minute folds every
    bucket's count is the number of rows of its group with a numeric value
    and its sum is the sum of those values; a null or non-numeric value
    leaves an existing bucket as it is.  In the admin statistics a bucket
    counts and sums [Number(r.value || 0)] of every row of its route whose
    coerced value is not NaN, so a null value counts as one row of value
    0. *)
Theorem buckets_hold_group_contributions {rt : Runtime} :
  (forall routeCol valueCol rows k b,
      lookup (byRoute routeCol valueCol rows) k = Some b ->
      Bucket.count b = List.length (route_values routeCol valueCol k rows)
      /\ (Bucket.sum b == Spec.Qsum (route_values routeCol valueCol k rows))%Q)
  /\ (forall timeCol valueCol rows o k b,
      byDate timeCol valueCol rows = Ok o -> lookup o k = Some b ->
      Bucket.count b = List.length (minute_values timeCol valueCol k rows)
      /\ (Bucket.sum b == Spec.Qsum (minute_values timeCol valueCol k rows))%Q)
  /\ (forall timeCol valueCol rows,
      dates_valid timeCol rows -> exists o, byDate timeCol valueCol rows = Ok o)
  /\ (forall x o k k' b,
      numeric_value x = None -> lookup o k' = Some b ->
      lookup (accumulate o k (numeric_value x)) k' = Some b)
  /\ numeric_value JNull = None
  /\ (forall rows k b,
      lookup (Admin.stats_byRoute rows) k = Some b ->
      Bucket.count b = List.length (admin_values k rows)
      /\ (Bucket.sum b == Spec.Qsum (admin_values k rows))%Q)
  /\ (forall r, Admin.value r = JNull -> Admin.stats_value r = Fin 0%Q).
Proof.
  conjs.
  - intros routeCol valueCol rows k b H.
    rewrite byRoute_aggregate in H.
    apply aggregate_bucket in H as (Hc & Hs & _). now split.
  - intros timeCol valueCol rows o k b Ho H.
    apply byDate_Ok_iff in Ho as [_ ->].
    apply aggregate_bucket in H as (Hc & Hs & _). now split.
  - intros timeCol valueCol rows Hv. eexists. apply byDate_Ok_iff. eauto.
  - intros x o k k' b Hx Hb. rewrite Hx, lookup_accumulate.
    destruct (inherited k); [exact Hb |].
    destruct (String.eqb_spec k k') as [-> | _]; [| exact Hb].
    now rewrite Hb.
  - reflexivity.
  - intros rows k b H. rewrite stats_byRoute_aggregate in H.
    apply aggregate_bucket in H as (Hc & Hs & _). now split.
  - apply @stats_value_null.
Qed.

Lemma buckets_hold_group_contributions_witness :
  exists b,
    lookup (@byRoute refRuntime "route" "value"
              [ [("route", JString "R1"); ("value", JNumber (Fin 40%Q))];
                [("route", JString "R1"); ("value", JNull)];
                [("route", JString "R1"); ("value", JNumber (Fin 60%Q))] ])
      "R1" = Some b
    /\ Bucket.count b = 2 /\ (Bucket.sum b == 100)%Q.
Proof.
  eexists. split; [reflexivity |].
  destruct (proj1 (@buckets_hold_group_contributions refRuntime)
              "route" "value"
              [ [("route", JString "R1"); ("value", JNumber (Fin 40%Q))];
                [("route", JString "R1"); ("value", JNull)];
                [("route", JString "R1"); ("value", JNumber (Fin 60%Q))] ]
              "R1" _ eq_refl) as [Hc Hs].
  split; [exact Hc | exact Hs].
Defined.





(** ** Recommendations *)

Lemma In_firstn {A} (n : nat) (l : list A) (x : A) :
  In x (firstn n l) -> In x l.
Proof.
  intros H. rewrite <- (firstn_skipn n l). apply in_or_app. now left.
Qed.

Lemma In_skipn {A} (n : nat) (l : list A) (x : A) :
  In x (skipn n l) -> In x l.
Proof.
  intros H. rewrite <- (firstn_skipn n l). apply in_or_app. now right.
Qed.

Section SortedFacts.
Context {A : Type} (R : A -> A -> Prop).


Lemma Forall_firstn_weak (P : A -> Prop) (n : nat) (l : list A) :
  Forall P l -> Forall P (firstn n l).
Proof.
  intros H. apply Forall_forall. intros x Hx.
  apply (proj1 (Forall_forall P l) H). eapply In_firstn; eassumption.
Qed.

Lemma StronglySorted_firstn (n : nat) (l : list A) :
  StronglySorted R l -> StronglySorted R (firstn n l).
Proof.
  revert l. induction n as [|n IH]; intros l H; [constructor |].
  destruct l as [|x l]; [constructor |]. simpl.
  inversion H; subst. constructor; [now apply IH |].
  now apply Forall_firstn_weak.
Qed.

(** In a sorted list every element of a prefix is related to every element
    of the rest. *)
Lemma StronglySorted_split (n : nat) (l : list A) (x y : A) :
  StronglySorted R l -> In x (firstn n l) -> In y (skipn n l) -> R x y.
Proof.
  revert l. induction n as [|n IH]; intros l H Hx Hy; [destruct Hx |].
  destruct l as [|a l]; [destruct Hx |]. simpl in Hx, Hy.
  inversion H as [|? ? Hs Hall]; subst.
  destruct Hx as [<- | Hx].
  - apply (proj1 (Forall_forall _ _) Hall). eapply In_skipn; eassumption.
  - now apply (IH l).
Qed.

End SortedFacts.

Lemma Sorted_weaken {A} (R R' : A -> A -> Prop) (l : list A) :
  (forall a b, R a b -> R' a b) -> Sorted R l -> Sorted R' l.
Proof.
  intros HR. induction 1 as [|a l Hs IH Hhd]; constructor; auto.
  destruct Hhd; constructor; auto.
Qed.






Lemma in_group_row {R : Type} (key : R -> option string) (k : string)
    (rows : list R) :
  Spec.in_group key k rows = true -> exists r, In r rows /\ key r = Some k.
Proof.
  unfold Spec.in_group. rewrite existsb_exists. intros (r & Hin & Hr).
  exists r. split; [exact Hin |].
  destruct (key r) as [k'|]; [| discriminate].
  apply String.eqb_eq in Hr. now subst.
Qed.




Example recommended_three_routes :
  recommended
    (top_of [mkStat "A" (Some 1%Q) 1; mkStat "B" None 0; mkStat "C" (Some 3%Q) 1])
  = ["C"; "A"].
Proof. reflexivity. Qed.

(** ** Replacing and accumulating datasets *)

(** What an ingestion leaves in the state depends on the ingested data and
    fields only, apart from the notifications and the distribution chart. *)
Lemma ingest_views {rt : Runtime} (s s' : state) (data : list record)
    (fields : list string) :
  ingest s data fields = Ok s' ->
  exists t,
    ingest fresh data fields = Ok t
    /\ rows s' = data /\ columns s' = fields /\ selectedCols s' = detect fields
    /\ statsByRoute s' = statsByRoute t
    /\ predictions s' = predictions t
    /\ topRoutes s' = topRoutes t
    /\ series s' = series t.
Proof.
  unfold ingest, data_effect, onParsed.
  cbn [rows columns notifications selectedCols statsByRoute series predictions
       predGroups topRoutes].
  generalize (detect fields) as sel. intros sel.
  generalize ((List.length data =? 0)%nat || (routeCol sel =? "")
              || (valueCol sel =? "")) as c1.
  generalize ((List.length data =? 0)%nat || (timeCol sel =? "")
              || (valueCol sel =? "")) as c2.
  intros c2 c1.
  destruct c2; [| destruct (byDate (timeCol sel) (valueCol sel) data) as [o | e];
                  [| discriminate]];
    intros [= <-]; eexists; (split; [reflexivity |]);
    destruct c1; repeat split.
Qed.

Lemma ingest_returns {rt : Runtime} (s : state) (data : list record)
    (fields : list string) :
  dates_valid (timeCol (detect fields)) data ->
  exists s', ingest s data fields = Ok s'.
Proof.
  intros Hv. unfold ingest, data_effect, onParsed.
  cbn [rows columns notifications selectedCols statsByRoute series predictions
       predGroups topRoutes].
  revert Hv. generalize (detect fields) as sel. intros sel Hv.
  destruct ((List.length data =? 0)%nat || (timeCol sel =? "")
            || (valueCol sel =? "")); [eauto |].
  rewrite (proj2 (byDate_Ok_iff (timeCol sel) (valueCol sel) data _)
             (conj Hv eq_refl)).
  eauto.
Qed.

(** The claim of C6 fails on the admin dashboard: a second import keeps the
    rows of the first. *)
Lemma admin_import_keeps_earlier_rows :
  ~ (forall (rt : Runtime) now first second prev,
       Admin.importCSV now second (Admin.importCSV now first prev)
       = map (Admin.normalize now) second).
Proof.
  intros H.
  specialize (H refRuntime "2024-01-01T00:00:00.000Z"
                [[("route", JString "R1"); ("value", JNumber (Fin 40%Q))];
                 [("route", JString "R2"); ("value", JNumber (Fin 10%Q))]]
                [[("route", JString "R3"); ("value", JNumber (Fin 5%Q))]]
                []).
  apply (f_equal (@List.length Admin.row)) in H.
  vm_compute in H. discriminate.
Qed.

(** C6, amended.  In the dashboard an ingestion replaces the dataset: after
    it the rows are the ingested ones and the route statistics, the
    predictions, the top routes and the time series are those of a fresh
    page that ingested the same data, whatever was loaded before; the
    ingestion completes whenever no time cell is an Invalid Date.  In the
    admin dashboard [importCSV] puts the new rows in front of the rows
    already held, up to 200000 rows, so earlier rows stay until the dataset
    is cleared. *)
Theorem ingestion_replaces_or_accumulates {rt : Runtime} :
  (forall s first fields1 s1 second fields2 s2,
      ingest s first fields1 = Ok s1 ->
      ingest s1 second fields2 = Ok s2 ->
      exists t,
        ingest fresh second fields2 = Ok t
        /\ rows s2 = second
        /\ statsByRoute s2 = statsByRoute t
        /\ predictions s2 = predictions t
        /\ topRoutes s2 = topRoutes t
        /\ series s2 = series t)
  /\ (forall s data fields,
      dates_valid (timeCol (detect fields)) data ->
      exists s', ingest s data fields = Ok s')
  /\ (forall now parsed prev,
      Admin.importCSV now parsed prev
      = firstn Admin.ROW_CAP (map (Admin.normalize now) parsed ++ prev))
  /\ (forall now parsed prev r,
      List.length parsed + List.length prev <= Admin.ROW_CAP ->
      In r prev -> In r (Admin.importCSV now parsed prev))
  /\ (forall prev, Admin.clearDataset prev = []).
Proof.
  conjs.
  - intros s first fields1 s1 second fields2 s2 _ H2.
    destruct (ingest_views s1 s2 second fields2 H2)
      as (t & Ht & Hr & _ & _ & Hs & Hp & Htop & Hser).
    exists t. repeat split; assumption.
  - intros s data fields. apply ingest_returns.
  - reflexivity.
  - intros now parsed prev r Hlen Hr.
    unfold Admin.importCSV, slice_to. rewrite firstn_all2.
    + apply in_or_app. now right.
    + rewrite length_app, length_map. exact Hlen.
  - reflexivity.
Qed.

Lemma ingestion_replaces_or_accumulates_witness :
  exists s1 s2,
    @ingest refRuntime fresh upload_1 ["route"; "congestion"] = Ok s1
    /\ @ingest refRuntime s1 upload_2 ["route"; "congestion"] = Ok s2
    /\ rows s2 = upload_2
    /\ statsByRoute s2 = [mkStat "R3" (Some 5.00%Q) 1].
Proof.
  eexists. eexists. split; [reflexivity |]. split; [reflexivity |].
  destruct (proj1 (@ingestion_replaces_or_accumulates refRuntime)
              fresh upload_1 ["route"; "congestion"] _
              upload_2 ["route"; "congestion"] _ eq_refl eq_refl)
    as (t & Ht & Hrows & Hstats & _).
  split; [exact Hrows |].
  rewrite Hstats. injection Ht as <-. reflexivity.
Defined.

(** ** The time series *)



(** C7, the failing input.  On a row whose time cell is the number 9e15
    [tryParseDate] returns an Invalid Date instead of null, so the row is
    not skipped: [toISOString] throws and no series is materialised. *)
Theorem series_throws_on_out_of_range_time {rt : Runtime} :
  tryParseDate (get out_of_range_row "time") = Some None
  /\ byDate "time" "speed" [out_of_range_row]
     = Throw "RangeError: Invalid time value"
  /\ forall s,
       ingest s [out_of_range_row] ["time"; "speed"]
       = Throw "RangeError: Invalid time value".
Proof.
  split; [reflexivity |]. split; [reflexivity |].
  intros s. reflexivity.
Qed.

(** ** Routes of normalised rows *)



Lemma first_truthy_cases (vs : list jsval) (d : jsval) :
  (first_truthy vs d = d /\ Forall (fun v => ToBoolean v = false) vs)
  \/ (exists v, In v vs /\ ToBoolean v = true /\ first_truthy vs d = v).
Proof.
  induction vs as [|v vs IH].
  - left. split; [reflexivity | constructor].
  - change (first_truthy (v :: vs) d)
      with (if ToBoolean v then v else first_truthy vs d).
    destruct (ToBoolean v) eqn:E.
    + right. exists v. split; [now left | split; [exact E | reflexivity]].
    + destruct IH as [[Hd Hall] | (w & Hin & Hw & Heq)].
      * left. split; [exact Hd | now constructor].
      * right. exists w. split; [now right | split; assumption].
Qed.



Lemma row_in_group {R : Type} (key : R -> option string) (rows : list R)
    (r : R) (k : string) :
  In r rows -> key r = Some k -> Spec.in_group key k rows = true.
Proof.
  intros Hin Hk. unfold Spec.in_group. apply existsb_exists.
  exists r. split; [exact Hin |]. rewrite Hk. apply String.eqb_refl.
Qed.



Example normalize_missing_route :
  Admin.route (@Admin.normalize refRuntime "2024-01-01T00:00:00.000Z"
                 [("route", JString ""); ("value", JNumber (Fin 5%Q))])
  = JString "Unknown".
Proof. reflexivity. Qed.

(** ** Coordinates *)

(** [Number(x) || null] keeps every number but NaN and 0. *)
Lemma number_or_null_cases {rt : Runtime} (x : jsval) :
  Admin.number_or_null x
  = match ToNumber x with
    | NaN => JNull
    | Fin q => if Qeq_bool q 0%Q then JNull else JNumber (Fin q)
    end.
Proof.
  unfold Admin.number_or_null, js_or. simpl.
  destruct (ToNumber x) as [|q]; [reflexivity |].
  now destruct (Qeq_bool q 0%Q).
Qed.




Example scenario_E_marker :
  @MapView refRuntime [scenario_E] "lat" "lng" = [Some (95%Q, 32%Q)].
Proof. reflexivity. Qed.

(** ** The embedding at work *)

(** The seed dataset of the admin dashboard. *)
Example admin_seed_recommendation :
  @Admin.recommendRoute refRuntime
    [ Admin.mkRow (JString "R1") (JString "2024-03-01T08:00:00.000Z")
        (JNumber (Fin 45%Q)) (JNumber (Fin 0.3476%Q)) (JNumber (Fin 32.5825%Q)) [];
      Admin.mkRow (JString "R2") (JString "2024-03-02T08:00:00.000Z")
        (JNumber (Fin 75%Q)) (JNumber (Fin 0.348%Q)) (JNumber (Fin 32.58%Q)) [];
      Admin.mkRow (JString "R3") (JString "2024-03-03T08:00:00.000Z")
        (JNumber (Fin 30%Q)) (JNumber (Fin 0.350%Q)) (JNumber (Fin 32.585%Q)) [] ]
  = "R3 (est. 30%) — R1 (est. 45%) — R2 (est. 75%)".
Proof. reflexivity. Qed.

(** A route whose only value is not a number is still suggested, last. *)
Example admin_recommendation_keeps_undefined_average :
  map Admin.ra_route
    (@Admin.suggested refRuntime
       [ Admin.mkRow (JString "R1") JNull (JString "n/a") JNull JNull [];
         Admin.mkRow (JString "R2") JNull (JNumber (Fin 75%Q)) JNull JNull [] ])
  = ["R2"; "R1"].
Proof. reflexivity. Qed.

(** Numeric route names are listed before the others, in numeric order. *)
Example numeric_routes_come_first :
  Object_keys
    (@byRoute refRuntime "route" "value"
       [ [("route", JString "B"); ("value", JNumber (Fin 1%Q))];
         [("route", JNumber (Fin 10%Q)); ("value", JNumber (Fin 1%Q))];
         [("route", JNumber (Fin 9%Q)); ("value", JNumber (Fin 1%Q))] ])
  = ["9"; "10"; "B"].
Proof. reflexivity. Qed.

(** Two rows of the same minute and one without a timestamp. *)
Example series_of_three_rows :
  @ingest refRuntime fresh
    [ [("time", JDate (Some 1700000000000%Z)); ("speed", JNumber (Fin 40%Q))];
      [("time", JNull); ("speed", JNumber (Fin 99%Q))];
      [("time", JNumber (Fin 1700000030000%Q)); ("speed", JNumber (Fin 41%Q))];
      [("time", JDate (Some 1600000000000%Z)); ("speed", JNumber (Fin 7%Q))] ]
    ["time"; "speed"]
  = Ok (mkState
          [ [("time", JDate (Some 1700000000000%Z)); ("speed", JNumber (Fin 40%Q))];
            [("time", JNull); ("speed", JNumber (Fin 99%Q))];
            [("time", JNumber (Fin 1700000030000%Q)); ("speed", JNumber (Fin 41%Q))];
            [("time", JDate (Some 1600000000000%Z)); ("speed", JNumber (Fin 7%Q))] ]
          ["time"; "speed"] ["Loaded 4 rows"]
          (mkSel "" "time" "speed" "" "")
          []
          [ mkPoint "2020-09-13T12:26" 7.00%Q; mkPoint "2023-11-14T22:13" 40.50%Q ]
          [] [] []).
Proof. reflexivity. Qed.

(* ================================================================== *)
(** * Further properties of the dashboard analytics *)
(* ================================================================== *)

(** ** The classifier and the distribution chart *)

Lemma simplePredictor_defined (groups : list stat) :
  numeric_avgs groups <> [] ->
  exists q1 q3,
    In q3 (numeric_avgs groups)
    /\ simplePredictor groups
       = map (fun g => mkPred g (label_with q1 q3 (avg g))) groups.
Proof.
  intros Hne.
  destruct (quartile_reads _ Hne) as (_ & _ & q1 & q3 & E1 & E3).
  exists q1, q3. split.
  - apply nth_error_In in E3. now apply sort_In in E3.
  - unfold simplePredictor.
    destruct (numeric_avgs groups) as [|a l] eqn:El; [congruence |].
    cbn [List.length Nat.eqb]. rewrite E1, E3. reflexivity.
Qed.

Lemma simplePredictor_undefined (groups : list stat) :
  numeric_avgs groups = [] ->
  simplePredictor groups = map (fun g => mkPred g "Unknown") groups.
Proof. intros H. unfold simplePredictor. now rewrite H. Qed.



Lemma label_with_cases (q1 q3 : Q) (a : option Q) :
  match a with
  | None => label_with q1 q3 a = "NoData"
  | Some _ =>
      label_with q1 q3 a = "Heavy" \/ label_with q1 q3 a = "Moderate"
      \/ label_with q1 q3 a = "Light"
  end.
Proof.
  destruct a as [x|]; [| reflexivity]. simpl.
  destruct (Qle_bool q3 x); [now left |].
  destruct (Qle_bool x q1); [right; now right | right; now left].
Qed.

Lemma labelled_defined (q1 q3 : Q) (groups : list stat) :
  let preds := map (fun g => mkPred g (label_with q1 q3 (avg g))) groups in
  labelled "Heavy" preds + labelled "Moderate" preds + labelled "Light" preds
  = List.length (filter has_avg groups).
Proof.
  induction groups as [|g gs IH]; [reflexivity |].
  cbn zeta in *. unfold labelled in *. cbn [map filter prediction].
  unfold has_avg at 1.
  pose proof (label_with_cases q1 q3 (avg g)) as Hl.
  destruct (avg g) as [x|].
  - destruct Hl as [-> | [-> | ->]]; cbn; rewrite <- IH; lia.
  - rewrite Hl. cbn. exact IH.
Qed.

(** X2.  The classifier returns the groups it was given, in order, each
    with one of five labels, and the Heavy, Moderate and Light counts of the
    distribution chart add up to the number of routes that have an
    average. *)
Theorem distribution_counts_routes_with_average (stats : list stat) :
  let preds := simplePredictor stats in
  map group preds = stats
  /\ Forall (fun p => In (prediction p)
                        ["Heavy"; "Moderate"; "Light"; "NoData"; "Unknown"])
       preds
  /\ predGroups_of preds
     = [("Heavy", labelled "Heavy" preds);
        ("Moderate", labelled "Moderate" preds);
        ("Light", labelled "Light" preds)]
  /\ labelled "Heavy" preds + labelled "Moderate" preds + labelled "Light" preds
     = List.length (filter has_avg stats).
Proof.
  intros preds. split; [| split; [| split]]; [| | reflexivity |].
  - subst preds.
    destruct (numeric_avgs stats) as [|a l] eqn:E.
    + rewrite simplePredictor_undefined by exact E.
      rewrite map_map. apply map_id.
    + destruct (simplePredictor_defined stats) as (q1 & q3 & _ & ->);
        [congruence |].
      rewrite map_map. apply map_id.
  - subst preds. apply Forall_forall. intros p Hp.
    destruct (numeric_avgs stats) as [|a l] eqn:E.
    + rewrite simplePredictor_undefined in Hp by exact E.
      apply in_map_iff in Hp as (g & <- & _). simpl. tauto.
    + destruct (simplePredictor_defined stats) as (q1 & q3 & _ & Heq);
        [congruence |].
      rewrite Heq in Hp. apply in_map_iff in Hp as (g & <- & _).
      cbn [prediction].
      pose proof (label_with_cases q1 q3 (avg g)) as Hl.
      destruct (avg g); [destruct Hl as [-> | [-> | ->]] | rewrite Hl];
        simpl; tauto.
  - subst preds.
    destruct (numeric_avgs stats) as [|a l] eqn:E.
    + rewrite simplePredictor_undefined by exact E.
      assert (filter has_avg stats = []) as ->.
      { pose proof (proj1 (numeric_avgs_nil stats) E) as Hall.
        clear -Hall. induction stats as [|g gs IH]; [reflexivity |].
        simpl. unfold has_avg at 1. rewrite (Hall g) by now left.
        apply IH. intros g' Hg'. apply Hall. now right. }
      clear. unfold labelled. induction stats as [|g gs IH]; [reflexivity |].
      simpl in *. exact IH.
    + destruct (simplePredictor_defined stats) as (q1 & q3 & _ & ->);
        [congruence |].
      apply labelled_defined.
Qed.

(** ** Top routes and route statistics *)


Lemma total_count_app (o o' : object) :
  total_count (o ++ o') = total_count o + total_count o'.
Proof. unfold total_count. now rewrite map_app, list_sum_app. Qed.

Lemma total_count_update (o : object) (k : string) (q : Q) (b : Bucket.t) :
  lookup o k = Some b ->
  total_count (update o k (Bucket.add q)) = S (total_count o).
Proof.
  revert b. induction o as [|[k0 b0] o IH]; intros b; simpl; [discriminate |].
  destruct (k0 =? k).
  - intros _. reflexivity.
  - intros H. unfold total_count in *. simpl. rewrite (IH b H). lia.
Qed.

Lemma total_count_accumulate (o : object) (k : string) (v : option number) :
  total_count (accumulate o k v)
  = total_count o
    + (if inherited k then 0
       else match v with Some (Fin _) => 1 | _ => 0 end).
Proof.
  unfold accumulate. destruct (inherited k); [lia |].
  destruct (lookup o k) as [b|] eqn:E.
  - destruct v as [[|q]|]; try lia.
    rewrite (total_count_update o k q b E). lia.
  - assert (total_count (o ++ [(k, Bucket.zero)]) = total_count o) as Hz
      by (rewrite total_count_app; unfold total_count; simpl; lia).
    destruct v as [[|q]|]; try lia.
    rewrite (total_count_update _ k q Bucket.zero).
    + lia.
    + rewrite lookup_app, E. simpl. now rewrite String.eqb_refl.
Qed.

Lemma total_count_aggregate {R : Type} (key : R -> option string)
    (val : R -> option number) (rows : list R) (o : object) :
  total_count (aggregate key val o rows)
  = total_count o + List.length (filter (counted key val) rows).
Proof.
  revert o. induction rows as [|r rs IH]; intros o; [simpl; lia |].
  unfold aggregate in *. cbn [fold_left filter]. rewrite IH.
  unfold counted at 2.
  destruct (key r) as [k|]; [| lia].
  rewrite total_count_accumulate.
  destruct (inherited k), (val r) as [[|q]|]; simpl; lia.
Qed.

Lemma list_sum_perm (l l' : list nat) :
  Permutation l l' -> list_sum l = list_sum l'.
Proof. induction 1; simpl; lia. Qed.

Lemma stats_of_routes (o : object) :
  map route (stats_of o) = Object_keys o.
Proof.
  unfold stats_of, Object_keys. rewrite map_map.
  apply map_ext. now intros [k b].
Qed.

(** X4.  The route statistics list every route once: exactly the route
    keys of the rows, but for members of [Object.prototype]; and the counts
    of all routes add up to the number of rows that carry a numeric value
    under such a key: no row is counted twice or lost. *)
Theorem route_stats_partition_rows {rt : Runtime}
    (routeCol valueCol : string) (rows : list record) :
  let stats := stats_of (byRoute routeCol valueCol rows) in
  NoDup (map route stats)
  /\ (forall k, In k (map route stats) <->
                inherited k = false
                /\ exists r, In r rows /\ route_key routeCol r = k)
  /\ list_sum (map count stats)
     = List.length
         (filter (counted (fun r => Some (route_key routeCol r))
                    (fun r => numeric_value (get r valueCol))) rows).
Proof.
  intros stats. subst stats. rewrite stats_of_routes, byRoute_aggregate.
  set (key := fun r : record => Some (route_key routeCol r)).
  set (val := fun r : record => numeric_value (get r valueCol)).
  conjs.
  - unfold Object_keys.
    apply (Permutation_NoDup
             (l := map fst (aggregate key val [] rows))).
    + apply Permutation_map. symmetry. apply Object_entries_perm.
    + apply aggregate_NoDup. constructor.
  - intros k. unfold Object_keys. rewrite in_map_iff. split.
    + intros ([k' b] & <- & Hin). simpl.
      apply aggregate_entry, aggregate_bucket in Hin as (_ & _ & Ik & Hg).
      split; [exact Ik |].
      apply in_group_row in Hg as (r & Hr & Hk).
      exists r. split; [exact Hr |]. unfold key in Hk. congruence.
    + intros (Ik & r & Hr & Hk).
      destruct (aggregate_bucket_exists key val rows k Ik) as [b Hb].
      { apply (row_in_group key rows r); [exact Hr |]. unfold key. now rewrite Hk. }
      exists (k, b). split; [reflexivity |]. now apply aggregate_entry.
  - unfold stats_of. rewrite map_map.
    rewrite (map_ext (fun x => count (stat_of x))
               (fun kv => Bucket.count (snd kv)))
      by (now intros [k b]).
    rewrite (list_sum_perm _ (map (fun kv => Bucket.count (snd kv))
                                (aggregate key val [] rows)))
      by (apply Permutation_map, Object_entries_perm).
    apply (total_count_aggregate key val rows []).
Qed.

Lemma route_stats_partition_rows_witness :
  list_sum (map count (stats_of (@byRoute refRuntime "route" "value"
                                   (scenario_A ++
                                    [[("route", JString "R2"); ("value", JNull)];
                                     [("route", JString "toString");
                                      ("value", JNumber (Fin 3%Q))]]))))
  = 3.
Proof.
  rewrite (proj2 (proj2 (@route_stats_partition_rows refRuntime "route" "value"
                           (scenario_A ++
                            [[("route", JString "R2"); ("value", JNull)];
                             [("route", JString "toString");
                              ("value", JNumber (Fin 3%Q))]])))).
  reflexivity.
Defined.

(** ** The time series *)






Lemma TimeClip_None (n : Q) :
  TimeClip n = None <-> (8.64e15 < Qabs n)%Q.
Proof.
  unfold TimeClip. destruct (Qle_bool (Qabs n) 8.64e15%Q) eqn:E.
  - apply Qle_bool_iff in E. split; [discriminate |].
    intros H. exfalso. apply (Qlt_not_le _ _ H E).
  - split; [intros _ | reflexivity].
    apply Qnot_le_lt. rewrite <- Qle_bool_iff. congruence.
Qed.

Lemma tryParseDate_invalid_iff {rt : Runtime} (v : jsval) :
  tryParseDate v = Some None <-> beyond_Date_range v.
Proof.
  unfold tryParseDate, beyond_Date_range. split.
  - destruct (ToBoolean v) eqn:Tv; simpl.
    + destruct (new_Date v) as [t|]; [discriminate |].
      destruct (ToNumber v) as [|n]; [discriminate |].
      destruct (Qle_bool n 1e9%Q) eqn:E; simpl; [discriminate |].
      intros [= Hc]. conjs; try reflexivity.
      exists n. split; [reflexivity |].
      apply TimeClip_None in Hc.
      assert (1e9 < n)%Q as Hn
        by (apply Qnot_le_lt; rewrite <- Qle_bool_iff; congruence).
      rewrite Qabs_pos in Hc; [exact Hc |].
      apply Qlt_le_weak. eapply Qlt_trans; [| exact Hn]. reflexivity.
    + destruct (is_zero v) eqn:Zv; simpl; [| discriminate].
      destruct v as [| |b|[|q]|s|tv]; try discriminate.
      simpl in Zv. apply Qeq_bool_iff in Zv.
      cbn [new_Date ToNumber]. 
      destruct (TimeClip q) eqn:Hc; [discriminate |].
      apply TimeClip_None in Hc. rewrite Zv in Hc. discriminate.
  - intros (Tv & Hd & n & Hn & Hbig). rewrite Tv, Hd, Hn. simpl.
    assert (Qle_bool n 1e9%Q = false) as ->.
    { destruct (Qle_bool n 1e9%Q) eqn:E; [| reflexivity].
      apply Qle_bool_iff in E. exfalso.
      apply (Qlt_not_le _ _ Hbig). eapply Qle_trans; [exact E |]. discriminate. }
    simpl. f_equal. apply TimeClip_None.
    rewrite Qabs_pos; [exact Hbig |].
    apply Qlt_le_weak. eapply Qlt_trans; [| exact Hbig]. reflexivity.
Qed.

Lemma dates_valid_dec {rt : Runtime} (timeCol : string) (rows : list record) :
  dates_valid timeCol rows
  \/ exists r, In r rows /\ tryParseDate (get r timeCol) = Some None.
Proof.
  induction rows as [|r rs IH].
  - left. constructor.
  - destruct (tryParseDate (get r timeCol)) as [[t|]|] eqn:E.
    + destruct IH as [IH | (r' & Hin & Hr')].
      * left. constructor; [congruence | exact IH].
      * right. exists r'. split; [now right | exact Hr'].
    + right. exists r. split; [now left | exact E].
    + destruct IH as [IH | (r' & Hin & Hr')].
      * left. constructor; [congruence | exact IH].
      * right. exists r'. split; [now right | exact Hr'].
Qed.

(** X7.  The per-minute fold throws exactly when some row's time cell lies
    beyond the range of Date: truthy, not a valid date, and coercing to a
    number above 8.64e15.  On every other dataset it returns. *)
Theorem series_throws_exactly_beyond_Date_range {rt : Runtime}
    (timeCol valueCol : string) (rows : list record) :
  ((exists e, byDate timeCol valueCol rows = Throw e) <->
   exists r, In r rows /\ beyond_Date_range (get r timeCol))
  /\ ((exists o, byDate timeCol valueCol rows = Ok o) <->
      forall r, In r rows -> ~ beyond_Date_range (get r timeCol)).
Proof.
  assert ((exists o, byDate timeCol valueCol rows = Ok o) <->
          dates_valid timeCol rows) as Hok.
  { split.
    - intros [o Ho]. now apply byDate_Ok_iff in Ho.
    - intros Hv. eexists. apply byDate_Ok_iff. eauto. }
  split.
  - split.
    + intros [e He].
      destruct (dates_valid_dec timeCol rows) as [Hv | (r & Hin & Hr)].
      * apply Hok in Hv as [o Ho]. congruence.
      * exists r. split; [exact Hin |]. now apply tryParseDate_invalid_iff.
    + intros (r & Hin & Hr). apply tryParseDate_invalid_iff in Hr.
      destruct (byDate timeCol valueCol rows) as [o | e] eqn:E; [| eauto].
      exfalso. apply byDate_Ok_iff in E as [Hv _].
      apply (proj1 (Forall_forall _ _) Hv r Hin Hr).
  - rewrite Hok. unfold dates_valid. rewrite Forall_forall.
    split; intros H r Hin Hr; apply (H r Hin);
      now apply tryParseDate_invalid_iff.
Qed.

(** ** Numeric cells *)

(** A cell contributes the number it coerces to exactly when that
    number is not NaN and the cell is neither null nor the empty string;
    so booleans and valid dates count as numbers. *)
Theorem numeric_value_iff {rt : Runtime} (x : jsval) (q : Q) :
  (numeric_value x = Some (Fin q) <->
   ToNumber x = Fin q /\ x <> JNull /\ x <> JString "")
  /\ numeric_value (JBool true) = Some (Fin 1%Q)
  /\ (forall t, numeric_value (JDate (Some t)) = Some (Fin (inject_Z t))).
Proof.
  conjs; [| reflexivity | reflexivity].
  unfold numeric_value, isNumeric. split.
  - destruct x as [| |b|[|n]|s|[t|]]; simpl; try discriminate;
      try (intros [= <-]; conjs; try reflexivity; discriminate).
    destruct (StringToNumber s) as [|n] eqn:E; simpl; [discriminate |].
    destruct (String.eqb_spec s ""); simpl; [discriminate |].
    intros [= <-]. conjs; [reflexivity | discriminate | congruence].
  - intros (Hn & Hnull & Hempty).
    destruct x as [| |b|[|n]|s|[t|]]; simpl in *;
      try discriminate; try congruence.
    rewrite Hn. simpl.
    destruct (String.eqb_spec s ""); [subst; congruence | reflexivity].
Qed.

(** ** Column detection *)

Lemma find_cons (c : string) (fields keys : list string) :
  Dashboard.find (c :: fields) keys
  = if matches keys c then c else Dashboard.find fields keys.
Proof.
  unfold Dashboard.find, matches. cbn [map findIndex].
  destruct (existsb (fun k => includes (toLowerCase c) k) keys); [reflexivity |].
  destruct (findIndex _ (map toLowerCase fields)); reflexivity.
Qed.

Lemma find_nil (keys : list string) : Dashboard.find [] keys = "".
Proof. reflexivity. Qed.

Lemma find_result (fields keys : list string) :
  Dashboard.find fields keys = ""
  \/ (In (Dashboard.find fields keys) fields
      /\ matches keys (Dashboard.find fields keys) = true).
Proof.
  induction fields as [|c fs IH]; [now left |].
  rewrite find_cons. destruct (matches keys c) eqn:E.
  - right. split; [now left | exact E].
  - destruct IH as [IH | [Hin Hm]]; [now left |].
    right. split; [now right | exact Hm].
Qed.

(** X8.  Auto-detection picks, for each role, the first header field whose
    lower-cased name contains one of the role's keys, and nothing when no
    field does; a selected column is always a field of the header. *)
Theorem find_first_match (fields keys : list string) :
  (Forall (fun c => matches keys c = false) fields ->
   Dashboard.find fields keys = "")
  /\ (forall before c after,
        fields = before ++ c :: after ->
        Forall (fun c' => matches keys c' = false) before ->
        matches keys c = true ->
        Dashboard.find fields keys = c)
  /\ (Dashboard.find fields keys = "" \/ In (Dashboard.find fields keys) fields).
Proof.
  conjs.
  - induction 1 as [|c fs Hc _ IH]; [reflexivity |].
    now rewrite find_cons, Hc.
  - intros before c after -> Hb Hc.
    induction Hb as [|c' before Hc' _ IH]; simpl.
    + now rewrite find_cons, Hc.
    + now rewrite find_cons, Hc'.
  - destruct (find_result fields keys) as [H | [H _]]; auto.
Qed.

Lemma find_first_match_witness :
  Dashboard.find ["id"; "Plate"; "Latitude"] ["lat"; "latitude"] = "Plate".
Proof.
  apply (proj1 (proj2 (find_first_match ["id"; "Plate"; "Latitude"]
                         ["lat"; "latitude"]))
           ["id"] "Plate" ["Latitude"]).
  - reflexivity.
  - repeat constructor.
  - reflexivity.
Defined.

Lemma prefix_trans (a b c : string) :
  prefix a b = true -> prefix b c = true -> prefix a c = true.
Proof.
  revert b c. induction a as [|x a IH]; intros b c Hab Hbc;
    [now destruct c |].
  destruct b as [|y b]; [discriminate |].
  destruct c as [|z c]; [discriminate |].
  simpl in *.
  destruct (ascii_dec x y) as [-> | _]; [| discriminate].
  destruct (ascii_dec y z) as [-> | _]; [| discriminate].
  now apply (IH b c).
Qed.

Lemma includes_prefix (s k k' : string) :
  prefix k' k = true -> includes s k = true -> includes s k' = true.
Proof.
  intros Hp. induction s as [|x s IH]; cbn [includes].
  - rewrite !orb_false_r. intros H. now apply (prefix_trans k' k "").
  - intros H. apply orb_true_iff in H as [H | H].
    + apply orb_true_iff. left. now apply (prefix_trans k' k (String x s)).
    + apply orb_true_iff. right. now apply IH.
Qed.

(** X9.  A latitude or longitude column picked by auto-detection is always
    one of the columns the data inspector offers for it. *)
Theorem detected_geo_columns_are_offered (fields : list string) :
  (latCol (detect fields) <> "" ->
   In (latCol (detect fields)) (Panels.geoCols fields))
  /\ (lngCol (detect fields) <> "" ->
      In (lngCol (detect fields)) (Panels.geoCols fields)).
Proof.
  unfold detect. cbn [latCol lngCol]. split; intros Hne.
  - destruct (find_result fields ["lat"; "latitude"]) as [H | [Hin Hm]];
      [contradiction |].
    apply filter_In. split; [exact Hin |].
    unfold matches in Hm. cbn [existsb] in Hm. rewrite orb_false_r in Hm.
    apply orb_true_iff in Hm as [Hm | Hm].
    + now rewrite Hm.
    + rewrite (includes_prefix _ "latitude" "lat" eq_refl Hm). reflexivity.
  - destruct (find_result fields ["lon"; "lng"; "longitude"]) as [H | [Hin Hm]];
      [contradiction |].
    apply filter_In. split; [exact Hin |].
    unfold matches in Hm. cbn [existsb] in Hm. rewrite orb_false_r in Hm.
    apply orb_true_iff in Hm as [Hm | Hm]; [| apply orb_true_iff in Hm as [Hm | Hm]].
    + rewrite Hm. apply orb_true_iff. left. apply orb_true_r.
    + rewrite Hm. apply orb_true_r.
    + rewrite (includes_prefix _ "longitude" "lon" eq_refl Hm).
      apply orb_true_iff. left. apply orb_true_r.
Qed.

Lemma detected_geo_columns_are_offered_witness :
  In (latCol (detect ["Road"; "Start_Latitude"; "LONGITUDE"]))
    (Panels.geoCols ["Road"; "Start_Latitude"; "LONGITUDE"]).
Proof.
  apply (proj1 (detected_geo_columns_are_offered
                  ["Road"; "Start_Latitude"; "LONGITUDE"])).
  discriminate.
Defined.

(** ** Map markers *)

(** X10.  The map never holds more than 300 entries: with geo-coded rows,
    one per row among the first 300, in row order; otherwise the two demo
    markers. *)
Theorem map_view_bounded {rt : Runtime} (rows : list record)
    (latCol lngCol : string) :
  List.length (MapView rows latCol lngCol) <= 300
  /\ (hasGeo latCol lngCol rows = true ->
      List.length (MapView rows latCol lngCol) = Nat.min 300 (List.length rows)
      /\ forall i m,
           nth_error (MapView rows latCol lngCol) i = Some m ->
           i < 300
           /\ exists r, nth_error rows i = Some r
                        /\ m = row_marker latCol lngCol r)
  /\ (hasGeo latCol lngCol rows = false ->
      List.length (MapView rows latCol lngCol) = 2).
Proof.
  unfold MapView, slice_to. destruct (hasGeo latCol lngCol rows).
  - conjs; try discriminate.
    + rewrite length_map, length_firstn. lia.
    + intros _. split; [now rewrite length_map, length_firstn |].
      intros i m Hm.
      assert (i < List.length (map (row_marker latCol lngCol) (firstn 300 rows)))
        as Hi by (apply nth_error_Some; congruence).
      rewrite length_map, length_firstn in Hi.
      split; [lia |].
      rewrite nth_error_map in Hm.
      destruct (nth_error (firstn 300 rows) i) as [r|] eqn:E; [| discriminate].
      exists r. split; [| now injection Hm].
      rewrite nth_error_firstn in E.
      destruct (i <? 300)%nat eqn:L; [exact E | discriminate].
  - conjs; try discriminate; try reflexivity. simpl. lia.
Qed.

(** X11.  Within a geo-coded dataset a row whose latitude cell is null is
    not left out: it gets a marker at latitude 0. *)
Theorem null_latitude_is_drawn_at_zero {rt : Runtime} (rows : list record)
    (latCol lngCol : string) (i : nat) (r : record) (x : Q) :
  hasGeo latCol lngCol rows = true ->
  i < 300 -> nth_error rows i = Some r ->
  get r latCol = JNull -> ToNumber (get r lngCol) = Fin x ->
  nth_error (MapView rows latCol lngCol) i = Some (Some (0%Q, x)).
Proof.
  intros Hgeo Hi Hr Hlat Hlng. unfold MapView, slice_to. rewrite Hgeo.
  rewrite nth_error_map, nth_error_firstn.
  apply Nat.ltb_lt in Hi. rewrite Hi, Hr. simpl.
  unfold row_marker. now rewrite Hlat, Hlng.
Qed.

Lemma null_latitude_is_drawn_at_zero_witness :
  nth_error
    (@MapView refRuntime
       [ [("lat", JNumber (Fin 1%Q)); ("lng", JNumber (Fin 32%Q))];
         [("lat", JNull); ("lng", JNumber (Fin 33%Q))] ] "lat" "lng") 1
  = Some (Some (0%Q, 33%Q)).
Proof.
  apply (@null_latitude_is_drawn_at_zero refRuntime
           [ [("lat", JNumber (Fin 1%Q)); ("lng", JNumber (Fin 32%Q))];
             [("lat", JNull); ("lng", JNumber (Fin 33%Q))] ] "lat" "lng" 1
           [("lat", JNull); ("lng", JNumber (Fin 33%Q))] 33%Q);
    try reflexivity.
  lia.
Defined.

(** ** Empty and cleared datasets *)

Lemma effect_without_value {rt : Runtime} (s : state) :
  rows s = [] \/ valueCol (selectedCols s) = "" ->
  exists s',
    data_effect s = Ok s' /\ views_empty s' /\ rows s' = rows s
    /\ selectedCols s' = selectedCols s /\ predGroups s' = predGroups s.
Proof.
  intros H. unfold data_effect.
  assert (forall c : string,
             ((List.length (rows s) =? 0)%nat || (c =? "")
              || (valueCol (selectedCols s) =? "")) = true) as Hc.
  { intros c. destruct H as [-> | ->].
    - reflexivity.
    - apply orb_true_r. }
  rewrite !Hc. eexists. split; [reflexivity |].
  unfold views_empty. cbn. repeat split.
Qed.

(** X12.  With no rows, or with no value column selected, the effect
    completes and leaves the route statistics, the predictions, the top
    routes and the series empty, while the distribution chart keeps the
    counts it had.  Clearing the dataset, and the uploader's Clear button,
    lead to that state. *)
Theorem views_empty_without_data {rt : Runtime} :
  (forall s,
      rows s = [] \/ valueCol (selectedCols s) = "" ->
      exists s',
        data_effect s = Ok s' /\ views_empty s' /\ rows s' = rows s
        /\ predGroups s' = predGroups s)
  /\ (forall s,
      exists s',
        data_effect (Panels.clearData s) = Ok s' /\ views_empty s'
        /\ rows s' = [] /\ columns s' = []
        /\ selectedCols s' = mkSel "" "" "" "" "")
  /\ (forall s,
      exists s', ingest s [] [] = Ok s' /\ views_empty s' /\ rows s' = [])
  /\ (forall s,
      exists s',
        data_effect (Panels.onSelect Panels.ValueCol "" s) = Ok s'
        /\ views_empty s' /\ rows s' = rows s).
Proof.
  conjs.
  - intros s H.
    destruct (effect_without_value s H) as (s' & He & Hv & Hr & _ & Hp).
    exists s'. auto.
  - intros s.
    destruct (effect_without_value (Panels.clearData s) (or_introl eq_refl))
      as (s' & He & Hv & Hr & Hs & _).
    exists s'. split; [exact He |]. split; [exact Hv |].
    unfold data_effect in He. cbn in He. injection He as <-.
    repeat split.
  - intros s. unfold ingest.
    destruct (effect_without_value (onParsed s [] []) (or_introl eq_refl))
      as (s' & He & Hv & Hr & _).
    exists s'. auto.
  - intros s.
    destruct (effect_without_value (Panels.onSelect Panels.ValueCol "" s)
                (or_intror eq_refl))
      as (s' & He & Hv & Hr & _).
    exists s'. auto.
Qed.

Lemma views_empty_without_data_witness :
  exists s',
    @data_effect refRuntime
      (mkState scenario_A ["route"; "value"] [] (mkSel "route" "" "" "" "")
         [mkStat "old" (Some 1%Q) 1] [] [] [("Heavy", 1)] []) = Ok s'
    /\ views_empty s' /\ rows s' = scenario_A
    /\ predGroups s' = [("Heavy", 1)].
Proof.
  apply (proj1 (@views_empty_without_data refRuntime)
           (mkState scenario_A ["route"; "value"] [] (mkSel "route" "" "" "" "")
              [mkStat "old" (Some 1%Q) 1] [] [] [("Heavy", 1)] [])).
  right. reflexivity.
Defined.

(* ================================================================== *)
(** * Further properties of the admin dashboard *)
(* ================================================================== *)

(** ** The dataset under imports, pastes and clears *)

Lemma sample_within_cap (now : string) :
  List.length (AdminOps.sample_rows now) <= Admin.ROW_CAP.
Proof.
  unfold Admin.ROW_CAP, AdminOps.sample_rows. cbn [List.length]. lia.
Qed.

Lemma apply_event_cap {rt : Runtime} (e : AdminOps.event)
    (prev : list Admin.row) :
  List.length prev <= Admin.ROW_CAP ->
  List.length (AdminOps.apply_event e prev) <= Admin.ROW_CAP.
Proof.
  intros Hp.
  destruct e as [now parsed | [new|] | | now];
    cbn [AdminOps.apply_event AdminOps.importJSONRows].
  - unfold Admin.importCSV, slice_to. rewrite length_firstn. lia.
  - unfold slice_to. rewrite length_firstn. lia.
  - exact Hp.
  - unfold Admin.clearDataset. cbn [List.length]. lia.
  - apply sample_within_cap.
Qed.

(** X13.  Whatever sequence of CSV imports, JSON pastes, clears and sample
    injections is applied to a dataset of at most 200000 rows, the dataset
    never exceeds 200000 rows; a failed JSON paste leaves it as it is, and
    a successful import puts the new rows first, in their order. *)
Theorem dataset_never_exceeds_cap {rt : Runtime} :
  (forall es prev,
      List.length prev <= Admin.ROW_CAP ->
      List.length (AdminOps.run es prev) <= Admin.ROW_CAP)
  /\ (forall prev, AdminOps.apply_event (AdminOps.ImportJSON None) prev = prev)
  /\ (forall new prev,
      List.length new <= Admin.ROW_CAP ->
      firstn (List.length new) (AdminOps.importJSONRows (Some new) prev) = new)
  /\ (forall new prev,
      List.length (AdminOps.importJSONRows (Some new) prev)
      = Nat.min Admin.ROW_CAP (List.length new + List.length prev)).
Proof.
  conjs.
  - intros es. induction es as [|e es IH]; intros prev Hp; [exact Hp |].
    unfold AdminOps.run in *. cbn [fold_left]. apply IH.
    now apply apply_event_cap.
  - reflexivity.
  - intros new prev Hcap. unfold AdminOps.importJSONRows, slice_to.
    rewrite firstn_firstn, Nat.min_l by exact Hcap.
    rewrite <- (Nat.add_0_r (List.length new)).
    rewrite firstn_app_2, firstn_0. apply app_nil_r.
  - intros new prev. unfold AdminOps.importJSONRows, slice_to.
    now rewrite length_firstn, length_app.
Qed.

Lemma dataset_never_exceeds_cap_witness :
  List.length
    (@AdminOps.run refRuntime
       [ AdminOps.InjectSample "2024-03-01T08:00:00.000Z";
         AdminOps.ImportCSV "2024-03-02T08:00:00.000Z" scenario_A;
         AdminOps.ImportJSON None ]
       [])
  <= Admin.ROW_CAP.
Proof.
  apply (proj1 (@dataset_never_exceeds_cap refRuntime)).
  cbn [List.length]. lia.
Defined.

(** ** Normalised rows *)

Lemma number_or_null_shape {rt : Runtime} (x : jsval) :
  null_or_nonzero (Admin.number_or_null x).
Proof.
  rewrite number_or_null_cases. destruct (ToNumber x) as [|q]; [now left |].
  destruct (Qeq_bool q 0%Q) eqn:E; [now left |].
  right. exists q. split; [reflexivity |].
  intros H. apply Qeq_bool_iff in H. congruence.
Qed.

Lemma stats_value_of_shape {rt : Runtime} (r : Admin.row) :
  null_or_nonzero (Admin.value r) -> exists q, Admin.stats_value r = Fin q.
Proof.
  unfold Admin.stats_value, js_or. intros [-> | (q & -> & Hq)]; simpl; [eauto |].
  destruct (Qeq_bool q 0%Q) eqn:E; simpl; eauto.
Qed.

Lemma group_values_all {R : Type} (key : R -> string)
    (val : R -> option number) (k : string) (rows : list R) :
  (forall r, In r rows -> exists q, val r = Some (Fin q)) ->
  List.length (Spec.group_values (fun r => Some (key r)) val k rows)
  = List.length (filter (fun r => key r =? k) rows).
Proof.
  induction rows as [|r rs IH]; intros Hall; [reflexivity |].
  cbn [Spec.group_values filter].
  destruct (Hall r (or_introl eq_refl)) as [q ->].
  assert (forall r', In r' rs -> exists q', val r' = Some (Fin q')) as Hrs
    by (intros r' Hr'; apply Hall; now right).
  destruct (key r =? k); simpl; now rewrite IH.
Qed.

(** X14.  A row built by [importCSV] has a value, a latitude and a
    longitude that are each null or a number other than 0 (a cell holding 0
    is stored as null), a timestamp that is never empty, and the parsed
    record as [raw].  In the statistics of rows of that shape every row is
    counted once in the bucket of its route. *)
Theorem normalized_rows_are_all_counted {rt : Runtime} :
  (forall now o,
      let r := Admin.normalize now o in
      null_or_nonzero (Admin.value r) /\ null_or_nonzero (Admin.lat r)
      /\ null_or_nonzero (Admin.lng r) /\ Admin.raw r = o
      /\ (now <> "" -> ToBoolean (Admin.timestamp r) = true))
  /\ (forall now o,
      get o "value" = JNumber (Fin 0%Q) ->
      Admin.value (Admin.normalize now o) = JNull)
  /\ (forall rows k b,
      Forall (fun r => null_or_nonzero (Admin.value r)) rows ->
      lookup (Admin.stats_byRoute rows) k = Some b ->
      Bucket.count b = List.length (rows_of_route k rows)).
Proof.
  conjs.
  - intros now o r. subst r. conjs; try apply number_or_null_shape.
    + reflexivity.
    + intros Hnow.
      change (Admin.timestamp (Admin.normalize now o))
        with (first_truthy [get o "timestamp"; get o "time"; get o "date";
                            get o "datetime"] (JString now)).
      destruct (first_truthy_cases
                  [get o "timestamp"; get o "time"; get o "date"; get o "datetime"]
                  (JString now)) as [[-> _] | (v & _ & Hv & ->)]; [| exact Hv].
      simpl. destruct (String.eqb_spec now ""); [contradiction | reflexivity].
  - intros now o Hv.
    change (Admin.value (Admin.normalize now o))
      with (Admin.number_or_null
              (nullish (get o "value") (nullish (get o "congestion")
                 (nullish (get o "count") (nullish (get o "flow")
                    (get o "vehicles")))))).
    rewrite Hv. reflexivity.
  - intros rows k b Hall Hb. rewrite stats_byRoute_aggregate in Hb.
    apply aggregate_bucket in Hb as (-> & _).
    unfold rows_of_route. apply group_values_all.
    intros r Hr. destruct (stats_value_of_shape r) as [q Hq].
    + apply (proj1 (Forall_forall _ _) Hall r Hr).
    + exists q. now rewrite Hq.
Qed.

Lemma normalized_rows_are_all_counted_witness :
  Admin.value (@Admin.normalize refRuntime "2024-03-01T08:00:00.000Z"
                 [("route", JString "R1"); ("value", JNumber (Fin 0%Q))])
  = JNull.
Proof.
  apply (proj1 (proj2 (@normalized_rows_are_all_counted refRuntime))).
  reflexivity.
Defined.

(** ** Per-day statistics *)

Lemma day_lookup_add (o : list (string * Admin.day_bucket)) (d d' : string)
    (v : number) :
  day_lookup (Admin.day_add o d v) d'
  = if d =? d' then day_after (day_lookup o d) [v] else day_lookup o d'.
Proof.
  induction o as [|[k b] o IH]; simpl.
  - destruct (d =? d'); reflexivity.
  - destruct (String.eqb_spec k d) as [-> | Hk]; simpl.
    + destruct (String.eqb_spec d d'); reflexivity.
    + rewrite IH.
      destruct (String.eqb_spec d d') as [<- | Hd];
        destruct (String.eqb_spec k d); try congruence; reflexivity.
Qed.

Lemma day_lookup_fold {rt : Runtime} (rows : list Admin.row)
    (o : list (string * Admin.day_bucket)) (d : string) :
  day_lookup
    (fold_left
       (fun o r =>
          match Admin.day_key r with
          | Some d => if inherited d then o else Admin.day_add o d (Admin.stats_value r)
          | None => o
          end) rows o) d
  = if inherited d then day_lookup o d
    else day_after (day_lookup o d) (map Admin.stats_value (day_rows d rows)).
Proof.
  revert o. induction rows as [|r rs IH]; intros o.
  - simpl. now destruct (inherited d).
  - cbn [fold_left]. rewrite IH. clear IH. unfold day_rows. cbn [filter].
    destruct (Admin.day_key r) as [d0|]; [| reflexivity].
    destruct (inherited d) eqn:Id.
    + destruct (inherited d0) eqn:Id0; [reflexivity |].
      rewrite day_lookup_add.
      destruct (String.eqb_spec d0 d); [congruence | reflexivity].
    + destruct (String.eqb_spec d0 d) as [-> | Hd].
      * rewrite Id, day_lookup_add, String.eqb_refl. reflexivity.
      * destruct (inherited d0); [reflexivity |].
        rewrite day_lookup_add.
        destruct (String.eqb_spec d0 d); [congruence | reflexivity].
Qed.

Lemma day_after_Some (b : Admin.day_bucket) (vs : list number) :
  day_after (Some b) vs
  = Some (Admin.mkDay (fold_left nadd vs (Admin.day_sum b))
            (Admin.day_count b + List.length vs)).
Proof.
  revert b. induction vs as [|v vs IH]; intros [s c].
  - simpl. now rewrite Nat.add_0_r.
  - unfold day_after in *. cbn [fold_left]. rewrite IH. simpl.
    do 2 f_equal. lia.
Qed.

Lemma day_after_None (vs : list number) (b : Admin.day_bucket) :
  day_after None vs = Some b ->
  vs <> [] /\ Admin.day_sum b = nsum vs /\ Admin.day_count b = List.length vs.
Proof.
  destruct vs as [|v vs]; [discriminate |].
  unfold day_after. cbn [fold_left].
  change (fold_left _ vs ?x) with (day_after x vs).
  rewrite day_after_Some. intros [= <-]. simpl.
  split; [discriminate |]. split; reflexivity.
Qed.

Lemma fold_nadd_NaN (vs : list number) : fold_left nadd vs NaN = NaN.
Proof. induction vs as [|v vs IH]; [reflexivity | exact IH]. Qed.

Lemma fold_nadd_NaN_iff (vs : list number) (q : Q) :
  fold_left nadd vs (Fin q) = NaN <-> In NaN vs.
Proof.
  revert q. induction vs as [|v vs IH]; intros q; simpl.
  - split; [discriminate | tauto].
  - destruct v as [|x]; simpl.
    + rewrite fold_nadd_NaN. split; auto.
    + rewrite IH. split; [auto | intros [H | H]; [discriminate | exact H]].
Qed.

(** X15.  A per-day bucket of the admin statistics counts every row of its
    day, whether or not the row's value is a number, and its sum is the
    sum of the coerced values: a single value that is not a number makes
    the day's sum NaN.  Every row with a day key that is not a member of
    [Object.prototype] is in a bucket. *)
Theorem day_buckets_count_every_row {rt : Runtime} (rows : list Admin.row) :
  (forall d b,
      day_lookup (Admin.stats_byDate rows) d = Some b ->
      Admin.day_count b = List.length (day_rows d rows)
      /\ Admin.day_sum b = nsum (map Admin.stats_value (day_rows d rows))
      /\ (Admin.day_sum b = NaN <->
          exists r, In r (day_rows d rows) /\ Admin.stats_value r = NaN))
  /\ (forall r d,
      In r rows -> Admin.day_key r = Some d -> inherited d = false ->
      exists b, day_lookup (Admin.stats_byDate rows) d = Some b
                /\ 1 <= Admin.day_count b).
Proof.
  split.
  - intros d b Hb. unfold Admin.stats_byDate in Hb.
    rewrite day_lookup_fold in Hb. simpl in Hb.
    destruct (inherited d); [discriminate |].
    apply day_after_None in Hb as (_ & Hs & Hc).
    rewrite length_map in Hc. conjs; [exact Hc | exact Hs |].
    rewrite Hs. unfold nsum. rewrite fold_nadd_NaN_iff, in_map_iff.
    split; intros (r & H1 & H2); exists r; auto.
  - intros r d Hin Hd Id. unfold Admin.stats_byDate.
    rewrite day_lookup_fold, Id. simpl.
    assert (In r (day_rows d rows)) as Hr.
    { apply filter_In. split; [exact Hin |]. rewrite Hd. apply String.eqb_refl. }
    destruct (map Admin.stats_value (day_rows d rows)) as [|v vs] eqn:E.
    + apply (f_equal (@List.length number)) in E. rewrite length_map in E.
      destruct (day_rows d rows); [destruct Hr | discriminate].
    + unfold day_after. cbn [fold_left].
      change (fold_left _ vs ?x) with (day_after x vs).
      rewrite day_after_Some. eexists. split; [reflexivity |]. simpl. lia.
Qed.

Lemma day_buckets_count_every_row_witness :
  exists b,
    day_lookup
      (@Admin.stats_byDate refRuntime
         [ Admin.mkRow (JString "R1") (JString "2024-03-01T08:00:00.000Z")
             (JNumber (Fin 45%Q)) JNull JNull [];
           Admin.mkRow (JString "R2") (JString "2024-03-01T09:30:00.000Z")
             (JString "n/a") JNull JNull [] ])
      "2024-03-01" = Some b
    /\ Admin.day_count b = 2 /\ Admin.day_sum b = NaN.
Proof.
  eexists. split; [reflexivity |].
  destruct (proj1 (@day_buckets_count_every_row refRuntime
                     [ Admin.mkRow (JString "R1") (JString "2024-03-01T08:00:00.000Z")
                         (JNumber (Fin 45%Q)) JNull JNull [];
                       Admin.mkRow (JString "R2") (JString "2024-03-01T09:30:00.000Z")
                         (JString "n/a") JNull JNull [] ])
              "2024-03-01" _ eq_refl) as (Hc & Hs & _).
  split; [exact Hc | exact Hs].
Defined.

(** ** The bar chart *)

Lemma sort_bar_desc_sorted (l : list Admin.routeStat) :
  StronglySorted by_bar_desc (sort AdminOps.bar_desc l).
Proof.
  apply Sorted_StronglySorted.
  - intros a b c Hab Hbc. unfold by_bar_desc in *. eapply Qle_trans; eassumption.
  - apply Sorted_weaken with (R := fun u v => AdminOps.bar_desc u v = true).
    + intros a b H. now apply Qle_bool_iff.
    + apply sort_sorted. intros a b. apply Qle_bool_total.
Qed.

(** X16.  The admin bar chart shows at most 8 routes of the statistics, in
    descending order of average, and no route left out has a larger
    average than a route shown. *)
Theorem bar_chart_shows_highest {rt : Runtime} (rows : list Admin.row) :
  let top := AdminOps.barData rows in
  List.length top <= 8
  /\ (forall g, In g top -> In g (Admin.routeStats rows))
  /\ StronglySorted by_bar_desc top
  /\ (forall g, In g (Admin.routeStats rows) ->
        In g top \/ forall h, In h top -> (Admin.rs_avg g <= Admin.rs_avg h)%Q)
  /\ (List.length (Admin.routeStats rows) <= 8 ->
      Permutation top (Admin.routeStats rows)).
Proof.
  intros top. subst top. unfold AdminOps.barData, slice_to.
  set (sorted := sort AdminOps.bar_desc (Admin.routeStats rows)).
  assert (StronglySorted by_bar_desc sorted) as Hsorted
    by apply sort_bar_desc_sorted.
  conjs.
  - rewrite length_firstn. lia.
  - intros g Hg. now apply In_firstn, sort_In in Hg.
  - now apply StronglySorted_firstn.
  - intros g Hin.
    assert (In g sorted) as Hg by (now apply sort_In).
    rewrite <- (firstn_skipn 8 sorted) in Hg.
    apply in_app_or in Hg as [Hfirst | Hrest]; [now left | right].
    intros h Hh.
    apply (StronglySorted_split by_bar_desc 8 sorted h g Hsorted Hh Hrest).
  - intros Hlen. rewrite firstn_all2.
    + apply sort_perm.
    + unfold sorted. now rewrite sort_length.
Qed.

(** ** Market, cart and orders *)

Lemma fold_left_prices {A : Type} (f : A -> Q) (l : list A) (a : Q) :
  (fold_left (fun t x => t + f x) l a == a + Spec.Qsum (map f l))%Q.
Proof.
  revert a. induction l as [|x l IH]; intros a; simpl.
  - ring.
  - rewrite IH. ring.
Qed.

Lemma stock_after_cases (c : list AdminOps.product) (it : AdminOps.product) :
  let left := (AdminOps.p_stock it
               - inject_Z (Z.of_nat (AdminOps.units c it)))%Q in
  (0 <= AdminOps.stock_after c it)%Q
  /\ ((0 <= left)%Q -> AdminOps.stock_after c it = left)
  /\ ((left < 0)%Q -> AdminOps.stock_after c it = 0%Q).
Proof.
  intros left. unfold AdminOps.stock_after. fold left.
  destruct (Qle_bool 0 left) eqn:E.
  - apply Qle_bool_iff in E. conjs; [exact E | reflexivity |].
    intros H. exfalso. apply (Qlt_not_le _ _ H E).
  - conjs; [apply Qle_refl | | reflexivity].
    intros H. apply Qle_bool_iff in H. congruence.
Qed.

(** X17.  Checking out an empty cart changes nothing.  Otherwise the cart
    is emptied, one order is put in front of the orders with the cart as
    its items and the sum of their prices as its total, and every product
    keeps its place with a stock of max(0, stock - units in the cart): no
    stock is ever negative afterwards, even when the cart held more units
    than were in stock.  Adding to the cart only ever appends a product of
    the market whose stock is positive. *)
Theorem checkout_settles_cart :
  (forall oid now buyer s,
      AdminOps.cart s = [] -> AdminOps.checkoutCart oid now buyer s = s)
  /\ (forall oid now buyer s,
      AdminOps.cart s <> [] ->
      let s' := AdminOps.checkoutCart oid now buyer s in
      AdminOps.cart s' = []
      /\ (exists o,
            AdminOps.orders s' = o :: AdminOps.orders s
            /\ AdminOps.o_items o = AdminOps.cart s
            /\ (AdminOps.o_total o
                == Spec.Qsum (map AdminOps.p_price (AdminOps.cart s)))%Q)
      /\ map AdminOps.p_id (AdminOps.market s')
         = map AdminOps.p_id (AdminOps.market s)
      /\ Forall (fun it => (0 <= AdminOps.p_stock it)%Q) (AdminOps.market s')
      /\ map AdminOps.p_stock (AdminOps.market s')
         = map (AdminOps.stock_after (AdminOps.cart s)) (AdminOps.market s))
  /\ (forall itemId s,
      let s' := AdminOps.addToCart itemId s in
      AdminOps.market s' = AdminOps.market s
      /\ AdminOps.orders s' = AdminOps.orders s
      /\ (AdminOps.cart s' = AdminOps.cart s
          \/ exists it,
               In it (AdminOps.market s) /\ AdminOps.p_id it = itemId
               /\ (0 < AdminOps.p_stock it)%Q
               /\ AdminOps.cart s' = AdminOps.cart s ++ [it])).
Proof.
  conjs.
  - intros oid now buyer s H. unfold AdminOps.checkoutCart. now rewrite H.
  - intros oid now buyer s Hne s'. subst s'. unfold AdminOps.checkoutCart.
    destruct (AdminOps.cart s) as [|c0 cs] eqn:Hc; [congruence |].
    cbn [AdminOps.cart AdminOps.orders AdminOps.market]. conjs.
    + reflexivity.
    + eexists. split; [reflexivity |]. cbn [AdminOps.o_items AdminOps.o_total].
      split; [reflexivity |].
      rewrite (fold_left_prices AdminOps.p_price (c0 :: cs) 0). ring.
    + rewrite map_map. reflexivity.
    + apply Forall_forall. intros it Hit.
      apply in_map_iff in Hit as (it0 & <- & _). cbn [AdminOps.p_stock].
      apply stock_after_cases.
    + rewrite map_map. reflexivity.
  - intros itemId s s'. subst s'. unfold AdminOps.addToCart.
    destruct (AdminOps.find_product (AdminOps.market s) itemId) as [it|] eqn:Hf;
      [| now conjs; try left].
    destruct (Qle_bool (AdminOps.p_stock it) 0) eqn:E; [now conjs; try left |].
    conjs; try reflexivity. right. exists it.
    assert (In it (AdminOps.market s) /\ AdminOps.p_id it = itemId) as [Hin Hid].
    { clear E. induction (AdminOps.market s) as [|x m IH]; [discriminate |].
      simpl in Hf. destruct (String.eqb_spec (AdminOps.p_id x) itemId).
      - injection Hf as <-. split; [now left | assumption].
      - destruct (IH Hf). split; [now right | assumption]. }
    conjs; try assumption; [| reflexivity].
    apply Qnot_le_lt. rewrite <- Qle_bool_iff. congruence.
Qed.

Lemma checkout_settles_cart_witness :
  map AdminOps.p_stock
    (AdminOps.market
       (AdminOps.checkoutCart "o_1" "2024-03-01T08:00:00.000Z" "admin"
          (AdminOps.addToCart "m1"
             (AdminOps.addToCart "m1"
                (AdminOps.addToCart "m1"
                   (AdminOps.mkShop [vest; inflator] [] []))))))
  = [0%Q; 12%Q].
Proof.
  rewrite (proj2 (proj2 (proj2 (proj2
            ((proj1 (proj2 checkout_settles_cart))
               "o_1" "2024-03-01T08:00:00.000Z" "admin"
               (AdminOps.addToCart "m1"
                  (AdminOps.addToCart "m1"
                     (AdminOps.addToCart "m1"
                        (AdminOps.mkShop [vest; inflator] [] []))))
               ltac:(discriminate)))))).
  reflexivity.
Defined.

(* ================================================================== *)
(** * Properties of the side panels *)
(* ================================================================== *)

(** ** Stoplight game *)

Lemma toggle_score (d : Panels.direction) (s : Panels.stoplight) :
  (0 <= Panels.game_score (Panels.toggle d s)
   /\ (0 <= Panels.game_score s ->
       Panels.game_score (Panels.toggle d s) <= Panels.game_score s + 1))%Z.
Proof.
  unfold Panels.toggle. cbn [Panels.game_score].
  destruct d, s as [[] [] [] [] sc]; cbn; lia.
Qed.

(** X18.  However the four lights are clicked, the score of the stoplight
    game is never negative and never exceeds the number of clicks. *)
Theorem stoplight_score_bounded (ds : list Panels.direction) :
  (0 <= Panels.game_score (play ds Panels.stoplight_init)
   <= Z.of_nat (List.length ds))%Z.
Proof.
  assert (forall s,
             (0 <= Panels.game_score s)%Z ->
             (0 <= Panels.game_score (play ds s)
              <= Panels.game_score s + Z.of_nat (List.length ds))%Z) as H.
  { induction ds as [|d ds IH]; intros s Hs.
    - simpl. lia.
    - unfold play in *. cbn [fold_left List.length].
      destruct (toggle_score d s) as [H0 H1].
      specialize (IH (Panels.toggle d s) H0). specialize (H1 Hs). lia. }
  specialize (H Panels.stoplight_init). cbn [Panels.game_score Panels.stoplight_init] in H.
  apply H. lia.
Qed.

(** X19.  A click changes the clicked light and no other; clicking the same
    light twice restores all four lights; turning a light green while the
    opposite light is green costs 2 points (down to 0 at least), any other
    click earns 1. *)
Theorem stoplight_toggle_lights (d : Panels.direction) (s : Panels.stoplight) :
  Panels.light_of (Panels.toggle d s) d = flip (Panels.light_of s d)
  /\ (forall d', d' <> d ->
        Panels.light_of (Panels.toggle d s) d' = Panels.light_of s d')
  /\ (forall d',
        Panels.light_of (Panels.toggle d (Panels.toggle d s)) d'
        = Panels.light_of s d')
  /\ Panels.game_score (Panels.toggle d s)
     = (if match Panels.light_of s d, Panels.light_of s (Panels.opposite d) with
           | Panels.red, Panels.green => true
           | _, _ => false
           end
        then Z.max 0 (Panels.game_score s - 2)
        else Z.max 0 (Panels.game_score s + 1))%Z.
Proof.
  conjs.
  - destruct d, s as [[] [] [] [] sc]; reflexivity.
  - intros d' Hd. destruct d, d', s as [[] [] [] [] sc];
      try reflexivity; congruence.
  - intros d'. destruct d, d', s as [[] [] [] [] sc]; reflexivity.
  - destruct d, s as [[] [] [] [] sc]; reflexivity.
Qed.

(** ** Trivia *)

Section TriviaFacts.

Variable norm : string -> string.
Variable saved : nat.

Lemma base_length : List.length Panels.baseQuestions = 10.
Proof. reflexivity. Qed.

Lemma firstn_snoc {A} (l : list A) (i : nat) (x : A) :
  nth_error l i = Some x -> firstn (S i) l = firstn i l ++ [x].
Proof.
  revert i. induction l as [|y l IH]; intros [|i] H; try discriminate.
  - injection H as ->. reflexivity.
  - change (y :: firstn (S i) l = y :: (firstn i l ++ [x])).
    f_equal. now apply IH.
Qed.

Lemma points_of_snoc (l : list Panels.question) (x : Panels.question) :
  points_of (l ++ [x]) = points_of l + Panels.points x.
Proof.
  unfold points_of. rewrite map_app, list_sum_app.
  cbn [map list_sum fold_right]. lia.
Qed.

Lemma submit_inv (s s' : Panels.trivia) :
  trivia_inv saved s -> Panels.completed s = false ->
  Panels.submit norm s = Ok s' -> trivia_inv saved s'.
Proof.
  intros [Hsc [(Hc & Hq & Hi) | (Hc & _)]] Hnc; [| congruence].
  unfold Panels.submit.
  destruct (Panels.answer s =? ""); [intros [= <-]; split; auto |].
  destruct (nth_error (Panels.questions s) (Panels.index s)) as [qu|] eqn:E;
    [| discriminate].
  rewrite Hq, base_length, Hc. rewrite Hq in E.
  assert (Panels.score s
          + (if norm (Panels.answer s) =? norm (Panels.q_answer qu)
             then Panels.points qu else 0)
          <= saved + points_of (firstn (S (Panels.index s)) Panels.baseQuestions))
    as Hscore.
  { rewrite (firstn_snoc _ _ _ E), points_of_snoc.
    destruct (norm (Panels.answer s) =? norm (Panels.q_answer qu)); lia. }
  destruct (10 <=? S (Panels.index s))%nat eqn:L; intros [= <-]; split;
    cbn [Panels.score Panels.index Panels.completed Panels.questions andb negb].
  - destruct (norm (Panels.answer s) =? norm (Panels.q_answer qu)); lia.
  - right. apply Nat.leb_le in L. split; [reflexivity |].
    split; [reflexivity | lia].
  - destruct (norm (Panels.answer s) =? norm (Panels.q_answer qu)); lia.
  - left. apply Nat.leb_gt in L. split; [reflexivity |].
    split; [reflexivity | lia].
Qed.

Lemma reachable_inv (s : Panels.trivia) : reachable norm saved s -> trivia_inv saved s.
Proof.
  induction 1 as [| v s _ IH | s _ IH | s s' _ IH Hc Hs].
  - split; [simpl; lia |]. left. repeat split. simpl. lia.
  - exact IH.
  - split; [simpl; lia |]. left. repeat split. simpl. lia.
  - now apply (submit_inv s s').
Qed.

Lemma points_of_firstn (i : nat) (l : list Panels.question) :
  points_of (firstn i l) <= points_of l.
Proof.
  rewrite <- (firstn_skipn i l) at 2. unfold points_of.
  rewrite map_app, list_sum_app. lia.
Qed.

(** X20.  In every state the player can reach, a game in progress asks one
    of the ten base questions and Submit does not fail: the two hard
    questions appended on completion are never asked.  A completed game
    stands at index 10, and the score never exceeds the saved score plus
    40. *)
Theorem trivia_reachable_states (s : Panels.trivia) :
  reachable norm saved s ->
  Panels.score s <= saved + 40
  /\ (Panels.completed s = false ->
      Panels.questions s = Panels.baseQuestions
      /\ (exists qu, nth_error Panels.baseQuestions (Panels.index s) = Some qu
                     /\ nth_error (Panels.questions s) (Panels.index s) = Some qu)
      /\ exists s', Panels.submit norm s = Ok s')
  /\ (Panels.completed s = true ->
      Panels.index s = 10
      /\ Panels.questions s = Panels.baseQuestions ++ Panels.hardQuestions).
Proof.
  intros Hr. destruct (reachable_inv s Hr) as [Hsc Hcase]. conjs.
  - pose proof (points_of_firstn (Panels.index s) Panels.baseQuestions) as H.
    change (points_of Panels.baseQuestions) with 40 in H. lia.
  - intros Hc. destruct Hcase as [(_ & Hq & Hi) | (Hc' & _)]; [| congruence].
    destruct (nth_error_in_bounds Panels.baseQuestions (Panels.index s))
      as [qu Hqu]; [now rewrite base_length |].
    conjs; [exact Hq | exists qu; now rewrite Hq |].
    unfold Panels.submit. destruct (Panels.answer s =? ""); [eauto |].
    rewrite Hq, Hqu. eauto.
  - intros Hc. destruct Hcase as [(Hc' & _) | (_ & Hq & Hi)]; [congruence |].
    now split.
Qed.

End TriviaFacts.

Lemma trivia_reachable_states_witness :
  Panels.score first_answered <= 0 + 40
  /\ (Panels.completed first_answered = false ->
      Panels.questions first_answered = Panels.baseQuestions
      /\ (exists qu, nth_error Panels.baseQuestions (Panels.index first_answered) = Some qu
                     /\ nth_error (Panels.questions first_answered) (Panels.index first_answered) = Some qu)
      /\ exists s', Panels.submit toLowerCase first_answered = Ok s')
  /\ (Panels.completed first_answered = true ->
      Panels.index first_answered = 10
      /\ Panels.questions first_answered = Panels.baseQuestions ++ Panels.hardQuestions).
Proof.
  apply (trivia_reachable_states toLowerCase 0).
  apply (reach_submit toLowerCase 0
           (Panels.setAnswer "GREEN" (Panels.trivia_init 0))).
  - apply reach_type, reach_init.
  - reflexivity.
  - reflexivity.
Defined.

(** ** Marketplace cart *)

Lemma remove_from_spec (n i : nat) (c : list Panels.item) :
  n <= i ->
  Panels.remove_from n i c = firstn (i - n) c ++ skipn (S (i - n)) c.
Proof.
  revert n. induction c as [|it c IH]; intros n Hn.
  - simpl. now rewrite firstn_nil.
  - cbn [Panels.remove_from].
    destruct (Nat.eqb_spec n i) as [-> | Hne].
    + rewrite Nat.sub_diag. cbn [firstn skipn app].
      clear IH Hn. revert i. induction c as [|y c IHc]; intros i; [reflexivity |].
      cbn [Panels.remove_from].
      destruct (Nat.eqb_spec (S i) i); [lia |]. f_equal.
      specialize (IHc (S i)).
      assert (forall m k l, m < k -> Panels.remove_from k m l = l) as Hskip.
      { clear. intros m k l. revert k. induction l as [|z l IHl]; intros k Hk;
          [reflexivity |].
        cbn [Panels.remove_from]. destruct (Nat.eqb_spec k m); [lia |].
        f_equal. apply IHl. lia. }
      apply Hskip. lia.
    + rewrite (IH (S n)) by lia.
      replace (i - n) with (S (i - S n)) by lia. reflexivity.
Qed.

(** X21.  Removing entry [i] of the cart deletes exactly that entry and
    keeps the others in order; an index past the end removes nothing;
    adding an item and removing the last entry gives the cart back. *)
Theorem cart_remove_one (c : list Panels.item) (i : nat) :
  Panels.remove i c = firstn i c ++ skipn (S i) c
  /\ (i < List.length c -> S (List.length (Panels.remove i c)) = List.length c)
  /\ (List.length c <= i -> Panels.remove i c = c)
  /\ (forall it, Panels.remove (List.length c) (Panels.add it c) = c)
  /\ (forall it, In it (Panels.remove i c) -> In it c).
Proof.
  assert (Panels.remove i c = firstn i c ++ skipn (S i) c) as Hrm.
  { unfold Panels.remove. rewrite remove_from_spec by lia.
    now rewrite Nat.sub_0_r. }
  conjs.
  - exact Hrm.
  - intros Hi. rewrite Hrm, length_app, length_firstn, length_skipn. lia.
  - intros Hi. rewrite Hrm, firstn_all2 by exact Hi.
    rewrite skipn_all2 by lia. apply app_nil_r.
  - intros it. unfold Panels.remove, Panels.add.
    rewrite remove_from_spec by lia. rewrite Nat.sub_0_r.
    rewrite <- (Nat.add_0_r (List.length c)) at 1.
    rewrite firstn_app_2, firstn_0, app_nil_r.
    rewrite skipn_all2 by (rewrite length_app; simpl; lia).
    apply app_nil_r.
  - intros it Hit. rewrite Hrm in Hit.
    apply in_app_or in Hit as [H | H]; [eapply In_firstn | eapply In_skipn];
      eassumption.
Qed.

(** ** Mechanic finder *)

Lemma lower_idempotent (c : ascii) : lower (lower c) = lower c.
Proof.
  destruct c as [[] [] [] [] [] [] [] []]; reflexivity.
Qed.

Lemma toLowerCase_idempotent (s : string) :
  toLowerCase (toLowerCase s) = toLowerCase s.
Proof.
  induction s as [|c s IH]; simpl; [reflexivity |].
  now rewrite lower_idempotent, IH.
Qed.

Lemma includes_empty (s : string) : includes s "" = true.
Proof. destruct s; reflexivity. Qed.

(** X22.  The mechanic finder lists every mechanic for an empty query,
    never lists anyone who is not in the directory, and gives the same
    result whatever the letter case of the query. *)
Theorem find_mechanics_query (ms : list Panels.mechanic) (q : string) :
  Panels.find_mechanics ms "" = ms
  /\ (forall m, In m (Panels.find_mechanics ms q) -> In m ms)
  /\ Panels.find_mechanics ms (toLowerCase q) = Panels.find_mechanics ms q.
Proof.
  conjs.
  - unfold Panels.find_mechanics. cbn [toLowerCase].
    induction ms as [|m ms IH]; [reflexivity |].
    cbn [filter]. rewrite includes_empty. now rewrite IH.
  - intros m Hm. now apply filter_In in Hm.
  - unfold Panels.find_mechanics. now rewrite toLowerCase_idempotent.
Qed.

(* ================================================================== *)
(** * Further properties: recommendation, day series, notifications *)
(* ================================================================== *)

(** ** The admin recommender *)



(** ** The admin day series *)











(** ** Notifications *)

Lemma data_effect_notifications {rt : Runtime} (s s' : state) :
  data_effect s = Ok s' -> notifications s' = notifications s.
Proof.
  unfold data_effect.
  destruct ((List.length (rows s) =? 0)%nat || (routeCol (selectedCols s) =? "")
            || (valueCol (selectedCols s) =? ""));
    destruct ((List.length (rows s) =? 0)%nat || (timeCol (selectedCols s) =? "")
              || (valueCol (selectedCols s) =? ""));
    cbn [rows columns notifications statsByRoute predictions predGroups topRoutes];
    try (intros [= <-]; reflexivity);
    destruct (byDate _ _ _); try discriminate; intros [= <-]; reflexivity.
Qed.

(** X25.  The dashboard keeps at most six notifications: an upload or a
    clear puts its message first and keeps the five latest earlier ones in
    order, and recomputing the views leaves the list alone.  The social
    page keeps at most 200 in the same way. *)
Theorem notifications_keep_latest {rt : Runtime} (s : state) :
  (forall data fields s',
      ingest s data fields = Ok s' ->
      List.length (notifications s') <= 6
      /\ notifications s'
         = (("Loaded " ++ string_of_nat (List.length data)) ++ " rows")%string
           :: firstn 5 (notifications s))
  /\ (forall s',
      data_effect (Panels.clearData s) = Ok s' ->
      List.length (notifications s') <= 6
      /\ notifications s' = "Cleared dataset" :: firstn 5 (notifications s))
  /\ (forall k v s',
      data_effect (Panels.onSelect k v s) = Ok s' ->
      notifications s' = notifications s)
  /\ (forall (A : Type) (n : A) (prev : list A),
      List.length (Social.pushNotification n prev) <= 200
      /\ Social.pushNotification n prev = n :: firstn 199 prev).
Proof.
  conjs.
  - intros data fields s' H. unfold ingest in H.
    apply data_effect_notifications in H. rewrite H.
    unfold onParsed, slice_to. cbn [notifications]. rewrite firstn_cons.
    split; [| reflexivity]. cbn [List.length]. rewrite length_firstn. lia.
  - intros s' H. apply data_effect_notifications in H. rewrite H.
    unfold Panels.clearData, slice_to. cbn [notifications]. rewrite firstn_cons.
    split; [| reflexivity]. cbn [List.length]. rewrite length_firstn. lia.
  - intros k v s' H. apply data_effect_notifications in H. rewrite H.
    reflexivity.
  - intros A n prev. unfold Social.pushNotification, slice_to.
    rewrite (firstn_cons 199).
    split; [| reflexivity]. cbn [List.length]. rewrite length_firstn. lia.
Qed.

(** ** timeAgo *)

(** X26.  [timeAgo] shows the whole number of seconds, minutes, hours or
    days that have elapsed, in the largest unit that has been reached:
    seconds below 60, minutes from 1 to 59, hours from 1 to 23, days from
    1.  A timestamp in the future is shown as a negative number of
    seconds, a falsy one as "Just now" and an unreadable one as "NaNd". *)
Theorem timeAgo_largest_unit {rt : Runtime} (now : Z) (iso : jsval) :
  (ToBoolean iso = false -> Social.timeAgo now iso = "Just now")
  /\ (ToBoolean iso = true -> new_Date iso = None ->
      Social.timeAgo now iso = "NaNd")
  /\ (forall t,
      ToBoolean iso = true -> new_Date iso = Some t ->
      exists n u ms,
        Social.timeAgo_parts now iso = Social.Ago n u
        /\ Social.timeAgo now iso = (NumberToString (inject_Z n) ++ u)%string
        /\ In (u, ms) ago_units
        /\ (ms * n <= now - t < ms * (n + 1))%Z
        /\ (u = "s" -> n < 60)%Z
        /\ (u = "m" -> 1 <= n < 60)%Z
        /\ (u = "h" -> 1 <= n < 24)%Z
        /\ (u = "d" -> 1 <= n)%Z
        /\ (now < t -> u = "s" /\ n < 0)%Z).
Proof.
  conjs.
  - intros H. unfold Social.timeAgo, Social.timeAgo_parts. now rewrite H.
  - intros H1 H2. unfold Social.timeAgo, Social.timeAgo_parts.
    now rewrite H1, H2.
  - intros t H1 H2. unfold Social.timeAgo, Social.timeAgo_parts.
    rewrite H1, H2. cbn [negb].
    destruct (Z.ltb_spec ((now - t) / 1000) 60) as [Hs | Hs].
    { exists ((now - t) / 1000)%Z, "s", 1000%Z.
      split; [reflexivity |]. split; [reflexivity |].
      split; [now left |].
      split; [Z.to_euclidean_division_equations; lia |].
      split; [intros _; exact Hs |].
      split; [discriminate |]. split; [discriminate |].
      split; [discriminate |].
      intros Hlt. split; [reflexivity |].
      Z.to_euclidean_division_equations; lia. }
    destruct (Z.ltb_spec ((now - t) / 1000 / 60) 60) as [Hm | Hm].
    { exists ((now - t) / 1000 / 60)%Z, "m", 60000%Z.
      split; [reflexivity |]. split; [reflexivity |].
      split; [right; now left |].
      split; [Z.to_euclidean_division_equations; lia |].
      split; [discriminate |].
      split; [intros _; Z.to_euclidean_division_equations; lia |].
      split; [discriminate |]. split; [discriminate |].
      intros Hlt. exfalso. Z.to_euclidean_division_equations; lia. }
    destruct (Z.ltb_spec ((now - t) / 1000 / 60 / 60) 24) as [Hh | Hh].
    { exists ((now - t) / 1000 / 60 / 60)%Z, "h", 3600000%Z.
      split; [reflexivity |]. split; [reflexivity |].
      split; [right; right; now left |].
      split; [Z.to_euclidean_division_equations; lia |].
      split; [discriminate |]. split; [discriminate |].
      split; [intros _; Z.to_euclidean_division_equations; lia |].
      split; [discriminate |].
      intros Hlt. exfalso. Z.to_euclidean_division_equations; lia. }
    exists ((now - t) / 1000 / 60 / 60 / 24)%Z, "d", 86400000%Z.
    split; [reflexivity |]. split; [reflexivity |].
    split; [right; right; right; now left |].
    split; [Z.to_euclidean_division_equations; lia |].
    split; [discriminate |]. split; [discriminate |].
    split; [discriminate |].
    split; [intros _; Z.to_euclidean_division_equations; lia |].
    intros Hlt. exfalso. Z.to_euclidean_division_equations; lia.
Qed.

Lemma timeAgo_largest_unit_witness :
  exists n u ms,
    @Social.timeAgo_parts refRuntime 1700007260000 (JDate (Some 1700000000000%Z))
    = Social.Ago n u
    /\ @Social.timeAgo refRuntime 1700007260000 (JDate (Some 1700000000000%Z))
       = (@NumberToString refRuntime (inject_Z n) ++ u)%string
    /\ In (u, ms) ago_units
    /\ (ms * n <= 1700007260000 - 1700000000000 < ms * (n + 1))%Z
    /\ (u = "s" -> n < 60)%Z
    /\ (u = "m" -> 1 <= n < 60)%Z
    /\ (u = "h" -> 1 <= n < 24)%Z
    /\ (u = "d" -> 1 <= n)%Z
    /\ (1700007260000 < 1700000000000 -> u = "s" /\ n < 0)%Z.
Proof.
  apply (proj2 (proj2 (@timeAgo_largest_unit refRuntime 1700007260000
                         (JDate (Some 1700000000000%Z))))); reflexivity.
Defined.

(** ** Likes and follows *)

Lemma toggleLike_post_twice (postId : string) (p : Social.post) :
  like_ok p -> Social.toggleLike postId (Social.toggleLike postId [p]) = [p].
Proof.
  intros [H0 H1]. destruct p as [i n l]. unfold Social.toggleLike.
  cbn [map Social.post_id Social.likes Social.liked] in *.
  destruct (String.eqb_spec i postId) as [-> | Hi]; cbn [negb].
  - cbn [Social.post_id Social.likes Social.liked].
    rewrite String.eqb_refl. cbn [negb].
    destruct l; cbn [negb].
    + specialize (H1 eq_refl). do 2 f_equal. lia.
    + do 2 f_equal. lia.
  - cbn [Social.post_id]. destruct (String.eqb_spec i postId); [congruence |].
    reflexivity.
Qed.

(** X27.  Liking touches only the posts with the given id and never
    reorders the feed.  While every like counter agrees with its flag (not
    negative, and at least 1 on a liked post) it stays so, a like adds 1
    and an unlike takes 1 away, and two clicks restore the feed.  A liked
    post stored with no likes is not restored: after two clicks it has
    one. *)
Theorem toggleLike_round_trip (postId : string) (posts : list Social.post) :
  map Social.post_id (Social.toggleLike postId posts) = map Social.post_id posts
  /\ (forall p, In p posts -> Social.post_id p <> postId ->
        In p (Social.toggleLike postId posts))
  /\ (Forall like_ok posts ->
      Forall like_ok (Social.toggleLike postId posts)
      /\ Social.toggleLike postId (Social.toggleLike postId posts) = posts
      /\ Forall2 (fun p q =>
                    Social.post_id p = postId ->
                    Social.liked q = negb (Social.liked p)
                    /\ Social.likes q
                       = (if Social.liked p then Social.likes p - 1
                          else Social.likes p + 1)%Z)
           posts (Social.toggleLike postId posts))
  /\ (forall n, (n <= 0)%Z ->
        Social.toggleLike postId
          (Social.toggleLike postId [Social.mkPost postId n true])
        = [Social.mkPost postId 1 true]).
Proof.
  conjs.
  - unfold Social.toggleLike. rewrite map_map. apply map_ext.
    intros p. now destruct (negb (Social.post_id p =? postId)).
  - intros p Hin Hne. unfold Social.toggleLike. apply in_map_iff.
    exists p. split; [| exact Hin].
    destruct (String.eqb_spec (Social.post_id p) postId); [congruence |].
    reflexivity.
  - intros Hok. conjs.
    + unfold Social.toggleLike. apply Forall_map.
      eapply Forall_impl; [| exact Hok].
      intros [i n l] [H0 H1]. cbn [Social.post_id Social.likes Social.liked] in *.
      destruct (negb (i =? postId)); [now split |].
      unfold like_ok. cbn [Social.likes Social.liked].
      destruct l; cbn [negb]; split; try lia; discriminate.
    + induction Hok as [|p ps Hp Hps IH]; [reflexivity |].
      change (Social.toggleLike postId (Social.toggleLike postId (p :: ps)))
        with (Social.toggleLike postId (Social.toggleLike postId [p])
              ++ Social.toggleLike postId (Social.toggleLike postId ps)).
      now rewrite (toggleLike_post_twice postId p Hp), IH.
    + induction Hok as [|p ps Hp Hps IH]; [constructor |].
      cbn [Social.toggleLike map]. constructor; [| exact IH].
      intros Hid. rewrite Hid, String.eqb_refl. cbn [negb Social.liked Social.likes].
      split; [reflexivity |].
      destruct Hp as [H0 H1]. destruct (Social.liked p); [| reflexivity].
      specialize (H1 eq_refl). lia.
  - intros n Hn. unfold Social.toggleLike.
    cbn [map Social.post_id Social.likes Social.liked].
    rewrite String.eqb_refl. cbn [negb Social.post_id Social.likes Social.liked].
    rewrite String.eqb_refl. cbn [negb].
    do 2 f_equal. lia.
Qed.

Lemma toggleLike_round_trip_witness :
  Forall like_ok
    (Social.toggleLike "p1" [Social.mkPost "p1" 3 true; Social.mkPost "p2" 0 false])
  /\ Social.toggleLike "p1"
       (Social.toggleLike "p1"
          [Social.mkPost "p1" 3 true; Social.mkPost "p2" 0 false])
     = [Social.mkPost "p1" 3 true; Social.mkPost "p2" 0 false]
  /\ Forall2 (fun p q =>
                Social.post_id p = "p1" ->
                Social.liked q = negb (Social.liked p)
                /\ Social.likes q
                   = (if Social.liked p then Social.likes p - 1
                      else Social.likes p + 1)%Z)
       [Social.mkPost "p1" 3 true; Social.mkPost "p2" 0 false]
       (Social.toggleLike "p1"
          [Social.mkPost "p1" 3 true; Social.mkPost "p2" 0 false]).
Proof.
  apply (proj1 (proj2 (proj2
           (toggleLike_round_trip "p1"
              [Social.mkPost "p1" 3 true; Social.mkPost "p2" 0 false])))).
  repeat constructor; cbn; try lia; discriminate.
Defined.

Lemma filter_not_In (u : string) (l : list string) :
  ~ In u l -> filter (fun x => negb (x =? u)) l = l.
Proof.
  induction l as [|x l IH]; intros H; [reflexivity |]. cbn [filter].
  destruct (String.eqb_spec x u) as [-> | Hx].
  - exfalso. apply H. now left.
  - cbn [negb]. f_equal. apply IH. intros Hin. apply H. now right.
Qed.

Lemma existsb_eqb_In (u : string) (l : list string) :
  existsb (fun x => x =? u) l = true <-> In u l.
Proof.
  rewrite existsb_exists. split.
  - intros (x & Hx & E). apply String.eqb_eq in E. now subst.
  - intros H. exists u. split; [exact H | apply String.eqb_refl].
Qed.

(** X28.  Clicking Follow flips whether the user is followed and leaves
    every other followed user alone, in order; it never introduces a
    duplicate; two clicks leave the same users followed, and give the very
    same list back when the user was not followed before. *)
Theorem followToggle_flips (userId : string) (mine : option (list string)) :
  let l := following mine in
  let l' := Social.followToggle userId mine in
  (In userId l' <-> ~ In userId l)
  /\ filter (fun x => negb (x =? userId)) l'
     = filter (fun x => negb (x =? userId)) l
  /\ (forall x, x <> userId -> (In x l' <-> In x l))
  /\ (NoDup l -> NoDup l')
  /\ (forall x, In x (Social.followToggle userId (Some l')) <-> In x l)
  /\ (~ In userId l -> Social.followToggle userId (Some l') = l).
Proof.
  intros l l'. subst l l'. unfold Social.followToggle.
  fold (following mine). set (l := following mine).
  assert (forall l0, ~ In userId (filter (fun x => negb (x =? userId)) l0))
    as Hgone.
  { intros l0 H. apply filter_In in H as [_ H].
    now rewrite String.eqb_refl in H. }
  assert (existsb (fun x => x =? userId) (l ++ [userId]) = true) as Hadded.
  { apply existsb_eqb_In, in_or_app. right. now left. }
  assert (forall l0, ~ In userId l0 ->
             filter (fun x => negb (x =? userId)) (l0 ++ [userId]) = l0)
    as Hback.
  { intros l0 H. rewrite filter_app, filter_not_In by exact H.
    cbn [filter]. rewrite String.eqb_refl. apply app_nil_r. }
  destruct (existsb (fun x => x =? userId) l) eqn:E.
  - assert (In userId l) as Hin by (now apply existsb_eqb_In).
    conjs.
    + split; [intros H; now apply Hgone in H | tauto].
    + induction l as [|x l0 IH]; [reflexivity |]. clear.
      generalize (x :: l0). intros l1.
      induction l1 as [|y l1 IH]; [reflexivity |]. cbn [filter].
      destruct (negb (y =? userId)) eqn:Ey; cbn [filter];
        rewrite ?Ey; now rewrite IH.
    + intros x Hx. rewrite filter_In.
      destruct (String.eqb_spec x userId); [congruence |]. cbn. tauto.
    + apply NoDup_filter.
    + intros x. cbn [following].
      assert (existsb (fun y => y =? userId)
                (filter (fun y => negb (y =? userId)) l) = false) as ->.
      { destruct (existsb _ (filter _ l)) eqn:E'; [| reflexivity].
        apply existsb_eqb_In in E'. now apply Hgone in E'. }
      rewrite in_app_iff, filter_In. cbn [In].
      destruct (String.eqb_spec x userId) as [-> | Hx]; cbn; [tauto |].
      split; [intros [[H _] | [H | []]]; [exact H | congruence] | tauto].
    + tauto.
  - assert (~ In userId l) as Hnot.
    { intros H. apply existsb_eqb_In in H. congruence. }
    conjs.
    + split; [tauto |]. intros _. apply in_or_app. right. now left.
    + now rewrite (Hback l Hnot), filter_not_In.
    + intros x Hx. rewrite in_app_iff. cbn [In].
      split; [intros [H | [H | []]]; [exact H | congruence] | tauto].
    + intros Hnd. apply NoDup_app. conjs.
      * exact Hnd.
      * repeat constructor. intros [].
      * intros x Hx [<- | []]. contradiction.
    + intros x. cbn [following]. rewrite Hadded, (Hback l Hnot). tauto.
    + intros _. cbn [following]. rewrite Hadded. apply (Hback l Hnot).
Qed.

(** ** Feedback moderation *)

(** X29.  Approving a feedback keeps the list and its order, marks every
    entry with the given id approved and so takes exactly those out of the
    pending view; approving twice is approving once.  Deleting removes
    exactly the entries with the id.  The approved and the pending view
    split the list, and any other filter shows all of it. *)
Theorem feedback_moderation (id name : string) (l : list Feedback.feedback) :
  map Feedback._id (Feedback.approveFeedback id l) = map Feedback._id l
  /\ (forall f, In f (Feedback.approveFeedback id l) ->
        Feedback._id f = id -> Feedback.approved f = true)
  /\ (forall f, In f l -> Feedback._id f <> id ->
        In f (Feedback.approveFeedback id l))
  /\ Feedback.filteredFeedbacks "pending" (Feedback.approveFeedback id l)
     = Feedback.deleteFeedback id (Feedback.filteredFeedbacks "pending" l)
  /\ Feedback.approveFeedback id (Feedback.approveFeedback id l)
     = Feedback.approveFeedback id l
  /\ (forall f, In f (Feedback.deleteFeedback id l) <->
                In f l /\ Feedback._id f <> id)
  /\ Feedback.deleteFeedback id (Feedback.approveFeedback id l)
     = Feedback.deleteFeedback id l
  /\ List.length (Feedback.filteredFeedbacks "approved" l)
     + List.length (Feedback.filteredFeedbacks "pending" l)
     = List.length l
  /\ (name <> "approved" -> name <> "pending" ->
      Feedback.filteredFeedbacks name l = l).
Proof.
  conjs.
  - unfold Feedback.approveFeedback. rewrite map_map. apply map_ext.
    intros f. now destruct (Feedback._id f =? id).
  - intros f Hin Hid. unfold Feedback.approveFeedback in Hin.
    apply in_map_iff in Hin as (g & <- & _).
    destruct (String.eqb_spec (Feedback._id g) id) as [E | E];
      [reflexivity | contradiction].
  - intros f Hin Hne. apply in_map_iff. exists f. split; [| exact Hin].
    destruct (String.eqb_spec (Feedback._id f) id); [congruence | reflexivity].
  - unfold Feedback.filteredFeedbacks, Feedback.deleteFeedback,
      Feedback.approveFeedback.
    change ("pending" =? "approved") with false.
    change ("pending" =? "pending") with true. cbv iota.
    induction l as [|f l IH]; [reflexivity |]. cbn [map filter].
    destruct (String.eqb_spec (Feedback._id f) id) as [E | E].
    + cbn [Feedback.approved negb]. rewrite IH.
      destruct (Feedback.approved f); cbn [negb filter]; [reflexivity |].
      destruct (String.eqb_spec (Feedback._id f) id); [reflexivity | contradiction].
    + rewrite IH. destruct (Feedback.approved f); cbn [negb filter];
        [reflexivity |].
      destruct (String.eqb_spec (Feedback._id f) id); [contradiction | reflexivity].
  - unfold Feedback.approveFeedback. rewrite map_map. apply map_ext.
    intros f. destruct (Feedback._id f =? id) eqn:E;
      cbn [Feedback._id Feedback.message Feedback.rating]; now rewrite E.
  - intros f. unfold Feedback.deleteFeedback. rewrite filter_In.
    destruct (String.eqb_spec (Feedback._id f) id); cbn; intuition congruence.
  - unfold Feedback.deleteFeedback, Feedback.approveFeedback.
    induction l as [|f l IH]; [reflexivity |]. cbn [map filter].
    destruct (Feedback._id f =? id) eqn:E; cbn [Feedback._id]; rewrite E;
      cbn [negb]; now rewrite IH.
  - unfold Feedback.filteredFeedbacks.
    change ("pending" =? "approved") with false.
    change ("pending" =? "pending") with true.
    change ("approved" =? "approved") with true. cbv iota.
    induction l as [|f l IH]; [reflexivity |]. cbn [filter].
    destruct (Feedback.approved f); cbn [negb List.length]; lia.
  - intros H1 H2. unfold Feedback.filteredFeedbacks.
    destruct (String.eqb_spec name "approved"); [contradiction |].
    destruct (String.eqb_spec name "pending"); [contradiction |].
    induction l as [|f l IH]; [reflexivity |]. cbn [filter]. now rewrite IH.
Qed.
